(** * Vocabulary serializer of plone.restapi: filtering, batching, tree output

    Shallow embedding of [src/plone/restapi/serializer/vocabularies.py]:
    [SerializeVocabLikeToJson.__call__], [filter_tree_vocab],
    [serialize_tree_vocab] and [SerializeTermToJson.__call__].

    Python values are modelled as follows.
    - [str] is [string]; [bytes] is a list of bytes; a title may be either.
    - [str.lower], [zope.i18n.translate] and UTF-8 decoding are library
      functions outside the serializer: they are variables of the section
      the code lives in.  [ascii_lower] is an instance used to evaluate
      the code on concrete inputs.
    - an [OrderedDict] is an association list in insertion order, with
      Python's item assignment [od_set]; a well-formed one has no key twice.
    - the response status is threaded as explicit state.
    - [HypermediaBatch] and the per-term serializer looked up with
      [getMultiAdapter] are collaborators: variables of the section.
      [call] is the serializer once the paginator has built its batch;
      [call_or_raise] adds the exception the paginator may raise. *)

From Stdlib Require Import List String Ascii Bool ZArith Lia.
Import ListNotations.
Open Scope string_scope.
Open Scope list_scope.

Set Implicit Arguments.

(** ** Python strings *)

(** [needle in hay] on [str]. *)
Fixpoint str_in (needle hay : string) : bool :=
  if String.prefix needle hay then true
  else match hay with
       | EmptyString => false
       | String _ rest => str_in needle rest
       end.

(** Truthiness of a [str]. *)
Definition str_truthy (s : string) : bool :=
  match s with EmptyString => false | _ => true end.

(** [str.lower] restricted to ASCII letters; other bytes are kept. *)
Definition ascii_lower_char (c : ascii) : ascii :=
  let n := nat_of_ascii c in
  if (65 <=? n)%nat && (n <=? 90)%nat then ascii_of_nat (n + 32) else c.

Fixpoint ascii_lower (s : string) : string :=
  match s with
  | EmptyString => EmptyString
  | String c rest => String (ascii_lower_char c) (ascii_lower rest)
  end.

(** ** Terms *)

(** The value of a [title] attribute: text or raw bytes. *)
Inductive TitleValue : Type :=
| TText (s : string)
| TBytes (b : list ascii).

(** A tokenized term.  [title] is [None] when the attribute is missing or
    is Python's [None].  The term's value is never read by the serializer
    and is left out; the tokens of a vocabulary's terms are unique, so
    terms that differ differ here. *)
Record Term : Type := mkTerm {
  token : string;
  title : option TitleValue
}.

(** [term.token] and [term.title] where a parameter of the request has the
    same name. *)
Abbreviation term_dot_token := token (only parsing).
Abbreviation term_dot_title := title (only parsing).

(** [ITitledTokenizedTerm.providedBy(term)]: zope.schema's [SimpleTerm]
    provides the interface exactly when its title is not [None]. *)
Definition ITitledTokenizedTerm_providedBy (t : Term) : bool :=
  match title t with Some _ => true | None => false end.

Definition TitleValue_eqb (a b : TitleValue) : bool :=
  match a, b with
  | TText x, TText y => String.eqb x y
  | TBytes x, TBytes y =>
      if list_eq_dec ascii_dec x y then true else false
  | _, _ => false
  end.

(** Equality of dictionary keys. *)
Definition Term_eqb (a b : Term) : bool :=
  String.eqb (token a) (token b) &&
  match title a, title b with
  | Some x, Some y => TitleValue_eqb x y
  | None, None => true
  | _, _ => false
  end.

(** ** Tree vocabularies: [OrderedDict[SimpleTerm, TreeVocabItems]] *)

#[local] Unset Elimination Schemes.
Inductive TreeVocabItems : Type :=
| OD (entries : list (Term * TreeVocabItems)).
#[local] Set Elimination Schemes.

(** [d.items()] *)
Definition od_items (d : TreeVocabItems) : list (Term * TreeVocabItems) :=
  match d with OD l => l end.

(** [len(d)] *)
Definition od_len (d : TreeVocabItems) : nat := List.length (od_items d).

Definition od_keys (d : TreeVocabItems) : list Term := map fst (od_items d).

(** [d[k] = v] on the entries: an existing key keeps its place and gets the
    new value, a new key goes last. *)
Fixpoint od_set (k : Term) (v : TreeVocabItems)
                (l : list (Term * TreeVocabItems)) : list (Term * TreeVocabItems) :=
  match l with
  | [] => [(k, v)]
  | (k', v') :: rest =>
      if Term_eqb k k' then (k', v) :: rest else (k', v') :: od_set k v rest
  end.

(** [d[k]], [None] for a missing key. *)
Fixpoint od_get (k : Term) (l : list (Term * TreeVocabItems)) : option TreeVocabItems :=
  match l with
  | [] => None
  | (k', v') :: rest => if Term_eqb k k' then Some v' else od_get k rest
  end.

Fixpoint key_in (k : Term) (ks : list Term) : bool :=
  match ks with
  | [] => false
  | k' :: rest => Term_eqb k k' || key_in k rest
  end.

Fixpoint keys_unique (ks : list Term) : bool :=
  match ks with
  | [] => true
  | k :: rest => negb (key_in k rest) && keys_unique rest
  end.

(** The invariant of an ordered dictionary of ordered dictionaries: no
    mapping holds a key twice. *)
Fixpoint well_formed (d : TreeVocabItems) : bool :=
  match d with
  | OD l =>
      keys_unique (map fst l) &&
      (fix all (l : list (Term * TreeVocabItems)) : bool :=
         match l with
         | [] => true
         | (_, sub) :: rest => well_formed sub && all rest
         end) l
  end.

(** ** JSON output *)

#[local] Unset Elimination Schemes.
Inductive json : Type :=
| JStr (s : string)
| JNum (n : Z)
| JList (l : list json)
| JDict (d : list (string * json)).
#[local] Set Elimination Schemes.

Definition pydict := list (string * json).

(** [d[k] = v] on a result dictionary. *)
Fixpoint dict_set (k : string) (v : json) (d : pydict) : pydict :=
  match d with
  | [] => [(k, v)]
  | (k', v') :: rest =>
      if String.eqb k k' then (k', v) :: rest else (k', v') :: dict_set k v rest
  end.

Fixpoint dict_get (k : string) (d : pydict) : option json :=
  match d with
  | [] => None
  | (k', v') :: rest => if String.eqb k k' then Some v' else dict_get k rest
  end.

Definition dict_has (k : string) (d : pydict) : bool :=
  match dict_get k d with Some _ => true | None => false end.

(** ** The request *)

(** [request.form["tokens"]]: one string, or a list when the parameter is
    repeated. *)
Inductive TokensParam : Type :=
| TokStr (s : string)
| TokList (l : list string).

Definition tokens_truthy (t : TokensParam) : bool :=
  match t with
  | TokStr s => str_truthy s
  | TokList [] => false
  | TokList _ => true
  end.

(** [if isinstance(tokens, str): tokens = [tokens]] *)
Definition tokens_normalize (t : TokensParam) : TokensParam :=
  match t with
  | TokStr s => TokList [s]
  | TokList l => TokList l
  end.

(** Iteration over [tokens] once it is a list. *)
Definition tokens_iter (t : TokensParam) : list string :=
  match t with
  | TokStr s => [s]
  | TokList l => l
  end.

(** [request.form]: the four parameters the serializer reads, [None] when
    absent. *)
Record Form : Type := mkForm {
  form_title : option string;
  form_token : option string;
  form_tokens : option TokensParam;
  form_b_size : option string
}.

(** [form.get(key, default)] *)
Definition form_get {A : Type} (v : option A) (default : A) : A :=
  match v with Some x => x | None => default end.

(** [request.response]: only the status matters here. *)
Record Response : Type := mkResponse { status : Z }.

Definition setStatus (code : Z) (_ : Response) : Response := mkResponse code.

(** A vocabulary is iterated as a flat sequence of terms unless it
    provides [ITreeVocabulary]. *)
Inductive Vocabulary : Type :=
| FlatVocabulary (terms : list Term)
| TreeVocabulary (items : TreeVocabItems).

(** What the serializer reads of a [HypermediaBatch]. *)
Record Batch (A : Type) : Type := mkBatch {
  batch_iter : list A;
  canonical_url : string;
  items_total : Z;
  links : option pydict
}.

(** Truthiness of [batch.links]: a non-empty dictionary. *)
Definition links_truthy (l : option pydict) : bool :=
  match l with
  | Some (_ :: _) => true
  | _ => false
  end.

(** The request: its form, and what only the collaborators read. *)
Record Request : Type := mkRequest {
  form : Form;
  actual_url : string;
  language : string
}.

(** ** The serializer *)

Section Serializer.

(** [str.lower] *)
Variable lower : string -> string.
(** [zope.i18n.translate(text, context=request)] *)
Variable translate : Request -> string -> string.
(** [bytes.decode("UTF-8")] *)
Variable decode_utf8 : list ascii -> string.
(** [getMultiAdapter((term, request), interface=ISerializeToJson)()] *)
Variable serialize_term : Request -> Term -> pydict.
(** [HypermediaBatch(request, sequence)] *)
Variable HypermediaBatch : forall A : Type, Request -> list A -> Batch A.

(** [safe_text]: bytes are decoded, text is returned as it is. *)
Definition safe_text (v : TitleValue) : string :=
  match v with
  | TText s => s
  | TBytes b => decode_utf8 b
  end.

Definition title_truthy (v : TitleValue) : bool :=
  match v with
  | TText s => str_truthy s
  | TBytes [] => false
  | TBytes _ => true
  end.

(** [getattr(term, "title", None) or ""] *)
Definition getattr_title_or_empty (term : Term) : TitleValue :=
  match title term with
  | Some v => if title_truthy v then v else TText ""
  | None => TText ""
  end.

(** [title.lower() in translate(term_title, context=request).lower()]
    with [term_title = safe_text(getattr(term, "title", None) or "")]. *)
Definition title_in_term_title (req : Request) (title : string) (term : Term) : bool :=
  let term_title := safe_text (getattr_title_or_empty term) in
  str_in (lower title) (lower (translate req term_title)).

(** *** The flat filter: lines 69-91 of [__call__] *)

(** [for item in tokens: if item.lower() != term.token.lower(): continue;
    terms.append(term)] *)
Fixpoint flat_tokens_loop (items : list string) (term : Term)
                          (terms : list Term) : list Term :=
  match items with
  | [] => terms
  | item :: rest =>
      if negb (String.eqb (lower item) (lower (token term)))
      then flat_tokens_loop rest term terms
      else flat_tokens_loop rest term (terms ++ [term])
  end.

(** One iteration of [for term in vocabulary]; the state is the local
    [tokens], rebound once it is seen to be a string, and [terms]. *)
Definition flat_filter_step (req : Request) (title token : string)
                            (st : TokensParam * list Term) (term : Term)
  : TokensParam * list Term :=
  let (tokens, terms) := st in
  if str_truthy token then
    if negb (String.eqb (lower token) (lower (term_dot_token term)))
    then (tokens, terms)
    else (tokens, terms ++ [term])
  else if tokens_truthy tokens then
    let tokens := tokens_normalize tokens in
    (tokens, flat_tokens_loop (tokens_iter tokens) term terms)
  else
    if negb (title_in_term_title req title term)
    then (tokens, terms)
    else (tokens, terms ++ [term]).

Definition filter_flat (req : Request) (vocabulary : list Term)
                       (title token : string) (tokens : TokensParam) : list Term :=
  snd (fold_left (flat_filter_step req title token) vocabulary (tokens, [])).

(** *** [filter_tree_vocab] *)

(** [for item in tokens: if item.lower() == term.token.lower():
    use = True; break] *)
Fixpoint tree_tokens_loop (items : list string) (term : Term) (use : bool) : bool :=
  match items with
  | [] => use
  | item :: rest =>
      if String.eqb (lower item) (lower (token term))
      then true
      else tree_tokens_loop rest term use
  end.

(** The value of [use] before the children are looked at; [tokens] is
    already a list here. *)
Definition tree_use (req : Request) (title token : string)
                    (tokens : TokensParam) (term : Term) : bool :=
  let use := false in
  if str_truthy token then
    if String.eqb (lower token) (lower (term_dot_token term)) then true else use
  else if tokens_truthy tokens then
    tree_tokens_loop (tokens_iter tokens) term use
  else
    if title_in_term_title req title term then true else use.

(** The body of [for term, sub_terms in outer], [self_filter] standing
    for the recursive call on [sub_terms.items()]. *)
Definition filter_tree_loop (self_filter : TreeVocabItems -> TreeVocabItems)
                            (req : Request) (title token : string)
                            (tokens : TokensParam) :=
  fix loop (outer terms : list (Term * TreeVocabItems))
    : list (Term * TreeVocabItems) :=
    match outer with
    | [] => terms
    | (term, sub_terms) :: rest =>
        let use := tree_use req title token tokens term in
        let inner := self_filter sub_terms in
        let use := if (0 <? od_len inner)%nat then true else use in
        loop rest (if use then od_set term inner terms else terms)
    end.

Fixpoint filter_tree_vocab (req : Request) (outer : TreeVocabItems)
                           (title token : string) (tokens : TokensParam)
  : TreeVocabItems :=
  let tokens := tokens_normalize tokens in
  match outer with
  | OD entries =>
      OD (filter_tree_loop
            (fun sub_terms => filter_tree_vocab req sub_terms title token tokens)
            req title token tokens entries [])
  end.

(** *** [serialize_tree_vocab] *)

Definition serialize_tree_loop (self_serialize : TreeVocabItems -> list pydict)
                               (req : Request) :=
  fix loop (iterable : list (Term * TreeVocabItems)) (result_list : list pydict)
    : list pydict :=
    match iterable with
    | [] => result_list
    | (term, sub_terms) :: rest =>
        let result := serialize_term req term in
        let result :=
          if (0 <? od_len sub_terms)%nat
          then dict_set "items" (JList (map JDict (self_serialize sub_terms))) result
          else result in
        loop rest (result_list ++ [result])
    end.

(** The recursive calls: [terms] is an ordered dictionary. *)
Fixpoint serialize_tree (req : Request) (terms : TreeVocabItems) : list pydict :=
  match terms with
  | OD entries => serialize_tree_loop (serialize_tree req) req entries []
  end.

(** [terms if isinstance(terms, HypermediaBatch) else terms.items()] *)
Definition serialize_tree_vocab (req : Request)
    (terms : TreeVocabItems + Batch (Term * TreeVocabItems)) : list pydict :=
  match terms with
  | inl d => serialize_tree req d
  | inr batch => serialize_tree_loop (serialize_tree req) req (batch_iter batch) []
  end.

(** *** [SerializeVocabLikeToJson.__call__] *)

Definition error_body : pydict :=
  [("error",
    JDict [("type", JStr "Invalid parameters");
           ("message",
            JStr "You can not filter by title and token at the same time.")])].

(** [for term in ...: serialized_terms.append(serializer())] *)
Definition serialize_terms_loop (req : Request) (terms : list Term)
                                (serialized_terms : list pydict) : list pydict :=
  fold_left (fun acc term => acc ++ [serialize_term req term]) terms serialized_terms.

(** The dictionary returned when a batch was built. *)
Definition batched_result (A : Type) (batch : Batch A)
                          (serialized_terms : list pydict) : pydict :=
  let result := [("@id", JStr (canonical_url batch));
                 ("items", JList (map JDict serialized_terms));
                 ("items_total", JNum (items_total batch))] in
  match links batch with
  | Some l => if links_truthy (Some l) then dict_set "batching" (JDict l) result
              else result
  | None => result
  end.

Definition call (req : Request) (vocabulary : Vocabulary) (vocabulary_id : string)
                (response : Response) : Response * pydict :=
  (* [safe_text] leaves the text of a form value as it is *)
  let title := form_get (form_title (form req)) "" in
  let token := form_get (form_token (form req)) "" in
  let tokens := form_get (form_tokens (form req)) (TokList []) in
  let b_size := form_get (form_b_size (form req)) "" in
  if str_truthy title && str_truthy token then
    (setStatus 400 response, error_body)
  else
    match vocabulary with
    | TreeVocabulary items =>
        let terms := filter_tree_vocab req items title token tokens in
        if String.eqb b_size "-1" then
          let serialized_terms := serialize_tree_vocab req (inl terms) in
          (response, [("@id", JStr vocabulary_id);
                      ("items", JList (map JDict serialized_terms))])
        else
          let batch := HypermediaBatch req (od_items terms) in
          let serialized_terms := serialize_tree_vocab req (inr batch) in
          (response, batched_result batch serialized_terms)
    | FlatVocabulary vocab =>
        let terms := filter_flat req vocab title token tokens in
        if String.eqb b_size "-1" then
          let serialized_terms := serialize_terms_loop req terms [] in
          (response, [("@id", JStr vocabulary_id);
                      ("items", JList (map JDict serialized_terms))])
        else
          let batch := HypermediaBatch req terms in
          let serialized_terms := serialize_terms_loop req (batch_iter batch) [] in
          (response, batched_result batch serialized_terms)
    end.

(** *** [SerializeTermToJson.__call__] *)

Definition SerializeTermToJson (req : Request) (term : Term) : pydict :=
  let token := token term in
  let title :=
    match term_dot_title term with
    | Some v => if ITitledTokenizedTerm_providedBy term then safe_text v else token
    | None => token
    end in
  [("token", JStr token); ("title", JStr (translate req title))].

End Serializer.

(** ** The serializer under a paginator that may refuse the request

    [HypermediaBatch(request, sequence)] reads [b_size] and [b_start] from
    the request on its own and raises when it cannot build a batch;
    [__call__] catches nothing, so the exception is the outcome of the
    call.  [call_or_raise] is [call] with that outcome written out. *)

(** An exception that leaves [__call__]. *)
Inductive Exception : Type :=
| BadRequest (message : string).

(** How a call ends: it returns a body, the response's status set as the
    code left it, or an exception leaves it. *)
Inductive Outcome : Type :=
| Returned (response : Response) (body : pydict)
| Raised (e : Exception).

Section SerializerRaising.

Variable lower : string -> string.
Variable translate : Request -> string -> string.
Variable decode_utf8 : list ascii -> string.
Variable serialize_term : Request -> Term -> pydict.
(** [HypermediaBatch(request, sequence)]: the batch, or the exception its
    constructor raises. *)
Variable HypermediaBatch_or_raise :
  forall A : Type, Request -> list A -> Exception + Batch A.

Definition call_or_raise (req : Request) (vocabulary : Vocabulary)
                         (vocabulary_id : string) (response : Response) : Outcome :=
  (* [safe_text] leaves the text of a form value as it is *)
  let title := form_get (form_title (form req)) "" in
  let token := form_get (form_token (form req)) "" in
  let tokens := form_get (form_tokens (form req)) (TokList []) in
  let b_size := form_get (form_b_size (form req)) "" in
  if str_truthy title && str_truthy token then
    Returned (setStatus 400 response) error_body
  else
    match vocabulary with
    | TreeVocabulary items =>
        let terms :=
          filter_tree_vocab lower translate decode_utf8 req items title token tokens in
        if String.eqb b_size "-1" then
          let serialized_terms := serialize_tree_vocab serialize_term req (inl terms) in
          Returned response [("@id", JStr vocabulary_id);
                             ("items", JList (map JDict serialized_terms))]
        else
          match HypermediaBatch_or_raise req (od_items terms) with
          | inl e => Raised e
          | inr batch =>
              let serialized_terms :=
                serialize_tree_vocab serialize_term req (inr batch) in
              Returned response (batched_result batch serialized_terms)
          end
    | FlatVocabulary vocab =>
        let terms :=
          filter_flat lower translate decode_utf8 req vocab title token tokens in
        if String.eqb b_size "-1" then
          let serialized_terms := serialize_terms_loop serialize_term req terms [] in
          Returned response [("@id", JStr vocabulary_id);
                             ("items", JList (map JDict serialized_terms))]
        else
          match HypermediaBatch_or_raise req terms with
          | inl e => Raised e
          | inr batch =>
              let serialized_terms :=
                serialize_terms_loop serialize_term req (batch_iter batch) [] in
              Returned response (batched_result batch serialized_terms)
          end
    end.

End SerializerRaising.

(** ** What the specification calls the filters

    [filterTree_spec] follows the specification's algorithm for the tree
    filter word for word: filter the children first, keep the node when it
    matches or when something below it was kept.  It is compared with
    [filter_tree_vocab] below. *)

Definition filterTree_spec (selfMatches : Term -> bool) :=
  fix filterTree (tree : TreeVocabItems) : TreeVocabItems :=
    match tree with
    | OD entries =>
        OD ((fix children (l : list (Term * TreeVocabItems)) :=
               match l with
               | [] => []
               | (term, node) :: rest =>
                   let prunedChildren := filterTree node in
                   if selfMatches term || negb (Nat.eqb (od_len prunedChildren) 0)
                   then (term, prunedChildren) :: children rest
                   else children rest
               end) entries)
    end.

(** The entries kept of one mapping, as a function of its own. *)
Fixpoint spec_children (selfMatches : Term -> bool)
                       (l : list (Term * TreeVocabItems)) : list (Term * TreeVocabItems) :=
  match l with
  | [] => []
  | (term, node) :: rest =>
      let prunedChildren := filterTree_spec selfMatches node in
      if selfMatches term || negb (Nat.eqb (od_len prunedChildren) 0)
      then (term, prunedChildren) :: spec_children selfMatches rest
      else spec_children selfMatches rest
  end.

(** Some term of the tree satisfies [p], at any depth. *)
Fixpoint matches_below (p : Term -> bool) (tree : TreeVocabItems) : bool :=
  match tree with
  | OD entries =>
      (fix any (l : list (Term * TreeVocabItems)) : bool :=
         match l with
         | [] => false
         | (term, node) :: rest => p term || matches_below p node || any rest
         end) entries
  end.

(** [path] names a chain of nested keys of [tree], from a top-level key
    downwards. *)
Fixpoint has_path (path : list Term) (tree : TreeVocabItems) : bool :=
  match path with
  | [] => true
  | k :: rest =>
      match od_get k (od_items tree) with
      | Some sub => has_path rest sub
      | None => false
      end
  end.

(** [small] is [big] with some entries left out, at any depth: what is kept
    stays in the order it had, under the same key. *)
Inductive tree_embeds : TreeVocabItems -> TreeVocabItems -> Prop :=
| embeds_nil : forall big, tree_embeds (OD []) (OD big)
| embeds_skip : forall small e big,
    tree_embeds (OD small) (OD big) ->
    tree_embeds (OD small) (OD (e :: big))
| embeds_keep : forall k sub_small sub_big small big,
    tree_embeds sub_small sub_big ->
    tree_embeds (OD small) (OD big) ->
    tree_embeds (OD ((k, sub_small) :: small)) (OD ((k, sub_big) :: big)).

(** [small] is [big] with some elements left out, order kept. *)
Inductive subsequence {A : Type} : list A -> list A -> Prop :=
| subseq_nil : forall big, subsequence [] big
| subseq_skip : forall small x big, subsequence small big -> subsequence small (x :: big)
| subseq_keep : forall x small big, subsequence small big -> subsequence (x :: small) (x :: big).

(** ** Instances used to run the code *)

(** No message catalogue: every text is its own translation. *)
Definition translate_identity (_ : Request) (text : string) : string := text.

(** Bytes of an ASCII title. *)
Definition decode_ascii (b : list ascii) : string := string_of_list_ascii b.

(** Modelled from the spec: the paginator, [plone.restapi.batching.HypermediaBatch],
    of which the sources hold only the calls.  A page is a slice of the
    sequence, the total is the length of the whole sequence, and there are
    links only when the sequence does not fit the page.  The page size is
    a parameter; the first page is returned. *)
Definition paginate (page_size : nat) (A : Type) (req : Request) (items : list A) : Batch A :=
  {| batch_iter := firstn page_size items;
     canonical_url := actual_url req;
     items_total := Z.of_nat (List.length items);
     links := if (page_size <? List.length items)%nat
              then Some [("@id", JStr (actual_url req))]
              else None |}.

Definition run_filter_flat := filter_flat ascii_lower translate_identity decode_ascii.
Definition run_filter_tree := filter_tree_vocab ascii_lower translate_identity decode_ascii.
Definition run_call (page_size : nat) :=
  call ascii_lower translate_identity decode_ascii
       (SerializeTermToJson translate_identity decode_ascii) (paginate page_size).

(** The number a string of decimal digits writes, [None] for any other
    string and for the empty one. *)
Fixpoint decimal_digits (s : string) (acc : nat) : option nat :=
  match s with
  | EmptyString => Some acc
  | String c rest =>
      let n := nat_of_ascii c in
      if (48 <=? n)%nat && (n <=? 57)%nat
      then decimal_digits rest (10 * acc + (n - 48))
      else None
  end.

Definition parse_page_size (s : string) : option nat :=
  match s with
  | EmptyString => None
  | _ => decimal_digits s 0
  end.

(** Modelled from the spec: the paginator, [plone.restapi.batching.HypermediaBatch],
    of which the sources hold only the calls, as far as it reads the page
    size.  The specification's page size is an integer (or the sentinel,
    which never reaches the paginator), and a failure aborts the request
    without a partial result: a [b_size] that is not a number is refused
    with [BadRequest], an absent one gives the default page size. *)
Definition paginate_or_raise (default_size : nat) (A : Type) (req : Request)
                             (items : list A) : Exception + Batch A :=
  match form_b_size (form req) with
  | None => inr (paginate default_size req items)
  | Some s =>
      match parse_page_size s with
      | Some page_size => inr (paginate page_size req items)
      | None => inl (BadRequest "Invalid b_size: Not an integer")
      end
  end.

Definition run_call_or_raise (default_size : nat) :=
  call_or_raise ascii_lower translate_identity decode_ascii
                (SerializeTermToJson translate_identity decode_ascii)
                (paginate_or_raise default_size).

(** ** Induction on trees: the entries of a mapping come with the
    property of their subtrees. *)

Fixpoint TreeVocabItems_ind (P : TreeVocabItems -> Prop)
    (step : forall entries, Forall (fun e => P (snd e)) entries -> P (OD entries))
    (tree : TreeVocabItems) : P tree :=
  match tree with
  | OD entries =>
      step entries
        ((fix all (l : list (Term * TreeVocabItems)) : Forall (fun e => P (snd e)) l :=
            match l with
            | [] => Forall_nil _
            | e :: rest =>
                Forall_cons e (TreeVocabItems_ind P step (snd e)) (all rest)
            end) entries)
  end.

(** What one term contributes to the result of the flat filter's [tokens]
    branch: one copy for every entry of [tokens] that equals its token. *)
Definition flat_copies (lower : string -> string) (items : list string)
                       (term : Term) : list Term :=
  map (fun _ => term)
      (filter (fun item => String.eqb (lower item) (lower (token term))) items).

(** What one term contributes to the result of the flat filter. *)
Definition flat_kept (lower : string -> string) (translate : Request -> string -> string)
                     (decode_utf8 : list ascii -> string) (req : Request)
                     (title token : string) (tokens : TokensParam)
                     (term : Term) : list Term :=
  if str_truthy token then
    if String.eqb (lower token) (lower (term_dot_token term)) then [term] else []
  else if tokens_truthy tokens then flat_copies lower (tokens_iter tokens) term
  else if title_in_term_title lower translate decode_utf8 req title term then [term]
  else [].

(** What the specification calls [titleOf]: the title of a titled term,
    decoded when it is raw bytes, and the token of any other term. *)
Definition titleOf (decode_utf8 : list ascii -> string) (term : Term) : string :=
  match title term with
  | Some v => safe_text decode_utf8 v
  | None => token term
  end.

(** The record of one entry of a tree: the term's own record, with the
    records of its children under [items] when it has children. *)
Definition serialized_entry (serialize_term : Request -> Term -> pydict)
                            (serialize_children : TreeVocabItems -> list pydict)
                            (req : Request) (entry : Term * TreeVocabItems) : pydict :=
  let (term, children) := entry in
  if Nat.eqb (od_len children) 0 then serialize_term req term
  else dict_set "items" (JList (map JDict (serialize_children children)))
                (serialize_term req term).

(** The parameters as [__call__] reads them, defaults included. *)
Definition query_title (req : Request) : string := form_get (form_title (form req)) "".
Definition query_token (req : Request) : string := form_get (form_token (form req)) "".
Definition query_tokens (req : Request) : TokensParam :=
  form_get (form_tokens (form req)) (TokList []).
Definition query_b_size (req : Request) : string := form_get (form_b_size (form req)) "".

(** ** Sample data *)

Definition request_with (title token : option string) (tokens : option TokensParam)
                        (b_size : option string) : Request :=
  {| form := {| form_title := title; form_token := token;
                form_tokens := tokens; form_b_size := b_size |};
     actual_url := "http://localhost/@vocabularies/fruits";
     language := "en" |}.

(** A term without a title of its own. *)
Definition plain_term (name : string) : Term := {| token := name; title := None |}.

Definition apple_banana : list Term :=
  [ {| token := "a"; title := Some (TText "Apple") |};
    {| token := "b"; title := Some (TText "Banana") |} ].

Definition fruit_tree : TreeVocabItems :=
  OD [ (plain_term "fruit",
        OD [ (plain_term "apple", OD []); (plain_term "banana", OD []) ]);
       (plain_term "veg", OD [ (plain_term "carrot", OD []) ]) ].

(** The subtree found by following a chain of nested keys, [tree] itself
    for the empty chain. *)
Fixpoint od_at (path : list Term) (tree : TreeVocabItems) : option TreeVocabItems :=
  match path with
  | [] => Some tree
  | k :: rest =>
      match od_get k (od_items tree) with
      | Some sub => od_at rest sub
      | None => None
      end
  end.

(** A flat sequence of terms as a tree vocabulary: every term a top-level
    entry without children. *)
Definition leaves (terms : list Term) : TreeVocabItems :=
  OD (map (fun term => (term, OD [])) terms).

(** * Properties *)

(** ** Strings and keys *)

Lemma prefix_empty (s : string) : String.prefix "" s = true.
Proof. destruct s; reflexivity. Qed.

Lemma str_in_empty (s : string) : str_in "" s = true.
Proof. destruct s; reflexivity. Qed.

Lemma str_truthy_false (s : string) : str_truthy s = false <-> s = "".
Proof. destruct s; simpl; split; congruence. Qed.

Lemma str_truthy_true (s : string) : str_truthy s = true <-> s <> "".
Proof. destruct s; simpl; split; congruence. Qed.

Lemma TitleValue_eqb_eq (a b : TitleValue) : TitleValue_eqb a b = true <-> a = b.
Proof.
  destruct a as [x|x], b as [y|y]; simpl; try (split; congruence).
  - rewrite String.eqb_eq. split; congruence.
  - destruct (list_eq_dec ascii_dec x y); split; congruence.
Qed.

Lemma Term_eqb_eq (a b : Term) : Term_eqb a b = true <-> a = b.
Proof.
  destruct a as [ta va], b as [tb vb]; unfold Term_eqb; simpl.
  rewrite andb_true_iff, String.eqb_eq.
  destruct va as [x|], vb as [y|]; try rewrite TitleValue_eqb_eq;
    split; intros H; try (destruct H; congruence); try (inversion H; auto).
Qed.

Lemma Term_eqb_refl (a : Term) : Term_eqb a a = true.
Proof. apply Term_eqb_eq. reflexivity. Qed.

Lemma key_in_In (k : Term) (ks : list Term) : key_in k ks = true <-> In k ks.
Proof.
  induction ks as [|k' ks IH]; simpl.
  - split; [discriminate | tauto].
  - rewrite orb_true_iff, Term_eqb_eq, IH. split; intros [H|H]; auto.
Qed.

Lemma key_in_app (k : Term) (a b : list Term) :
  key_in k (a ++ b) = key_in k a || key_in k b.
Proof.
  induction a as [|x a IH]; simpl; [reflexivity|].
  rewrite IH. apply orb_assoc.
Qed.

(** ** The request parameters *)

Lemma tokens_iter_normalize (t : TokensParam) :
  tokens_iter (tokens_normalize t) = tokens_iter t.
Proof. destruct t; reflexivity. Qed.

Lemma tokens_normalize_idem (t : TokensParam) :
  tokens_normalize (tokens_normalize t) = tokens_normalize t.
Proof. destruct t; reflexivity. Qed.

Lemma tokens_truthy_normalize (t : TokensParam) :
  tokens_truthy t = true -> tokens_truthy (tokens_normalize t) = true.
Proof. destruct t as [s|[|x l]]; simpl; auto. Qed.

(** ** The flat filter as a map over the vocabulary *)

Section FlatFilter.

Variable lower : string -> string.
Variable translate : Request -> string -> string.
Variable decode_utf8 : list ascii -> string.

Lemma flat_tokens_loop_copies (items : list string) (term : Term) (terms : list Term) :
  flat_tokens_loop lower items term terms = terms ++ flat_copies lower items term.
Proof.
  revert terms. unfold flat_copies.
  induction items as [|item items IH]; intros terms; simpl.
  - now rewrite app_nil_r.
  - destruct (String.eqb (lower item) (lower (token term))); simpl.
    + rewrite IH, <- app_assoc. reflexivity.
    + apply IH.
Qed.

(** The local [tokens] is the parameter, or its one-element list once
    the [tokens] branch has run; both drive the loop the same way. *)
Lemma flat_filter_fold (req : Request) (title token : string) (tokens : TokensParam)
      (vocabulary : list Term) (tk : TokensParam) (terms : list Term) :
  tk = tokens \/ (tokens_truthy tokens = true /\ tk = tokens_normalize tokens) ->
  snd (fold_left (flat_filter_step lower translate decode_utf8 req title token)
                 vocabulary (tk, terms))
  = terms ++ flat_map (flat_kept lower translate decode_utf8 req title token tokens)
                      vocabulary.
Proof.
  revert tk terms.
  induction vocabulary as [|term rest IH]; intros tk terms Htk; simpl.
  - now rewrite app_nil_r.
  - assert (Htruthy : tokens_truthy tk = tokens_truthy tokens).
    { destruct Htk as [->|[Ht ->]]; [reflexivity|].
      now rewrite Ht, tokens_truthy_normalize. }
    assert (Hiter : tokens_iter (tokens_normalize tk) = tokens_iter tokens).
    { destruct Htk as [->|[_ ->]];
        now rewrite ?tokens_normalize_idem, tokens_iter_normalize. }
    unfold flat_kept at 1.
    destruct (str_truthy token) eqn:Htoken.
    + destruct (String.eqb (lower token) (lower (term_dot_token term))); simpl;
        rewrite (IH _ _ Htk); [now rewrite <- app_assoc | reflexivity].
    + rewrite Htruthy. destruct (tokens_truthy tokens) eqn:Htokens.
      * rewrite IH.
        -- rewrite Hiter, flat_tokens_loop_copies, <- app_assoc. reflexivity.
        -- right. split; [reflexivity|].
           destruct Htk as [->|[_ ->]]; now rewrite ?tokens_normalize_idem.
      * destruct (title_in_term_title lower translate decode_utf8 req title term);
          simpl; rewrite (IH _ _ Htk); [now rewrite <- app_assoc | reflexivity].
Qed.

Lemma filter_flat_flat_map (req : Request) (vocabulary : list Term)
      (title token : string) (tokens : TokensParam) :
  filter_flat lower translate decode_utf8 req vocabulary title token tokens
  = flat_map (flat_kept lower translate decode_utf8 req title token tokens) vocabulary.
Proof.
  unfold filter_flat.
  rewrite flat_filter_fold with (tokens := tokens) by (left; reflexivity).
  reflexivity.
Qed.

End FlatFilter.

(** ** Ordered dictionaries *)

Lemma od_set_fresh (k : Term) (v : TreeVocabItems) (l : list (Term * TreeVocabItems)) :
  key_in k (map fst l) = false -> od_set k v l = l ++ [(k, v)].
Proof.
  induction l as [|[k' v'] l IH]; simpl; [reflexivity|].
  intros H. apply orb_false_iff in H. destruct H as [Hk Hl].
  rewrite Hk, IH by assumption. reflexivity.
Qed.

Lemma od_get_key_in (k : Term) (l : list (Term * TreeVocabItems)) :
  key_in k (map fst l) = false -> od_get k l = None.
Proof.
  induction l as [|[k' v'] l IH]; simpl; [reflexivity|].
  intros H. apply orb_false_iff in H. destruct H as [Hk Hl].
  rewrite Hk. auto.
Qed.

Lemma well_formed_OD (l : list (Term * TreeVocabItems)) :
  well_formed (OD l)
  = keys_unique (map fst l) && forallb (fun e => well_formed (snd e)) l.
Proof.
  simpl. f_equal.
  induction l as [|[k v] l IH]; simpl; [reflexivity|].
  now rewrite IH.
Qed.

Lemma filterTree_spec_OD (p : Term -> bool) (l : list (Term * TreeVocabItems)) :
  filterTree_spec p (OD l) = OD (spec_children p l).
Proof.
  simpl. f_equal.
  induction l as [|[k v] l IH]; simpl; [reflexivity|].
  now rewrite IH.
Qed.

Lemma matches_below_OD (p : Term -> bool) (l : list (Term * TreeVocabItems)) :
  matches_below p (OD l)
  = existsb (fun e => p (fst e) || matches_below p (snd e)) l.
Proof.
  simpl.
  induction l as [|[k v] l IH]; simpl; [reflexivity|].
  now rewrite IH.
Qed.

Lemma spec_children_keys (p : Term -> bool) (k : Term) (l : list (Term * TreeVocabItems)) :
  key_in k (map fst l) = false ->
  key_in k (map fst (spec_children p l)) = false.
Proof.
  induction l as [|[k' v'] l IH]; simpl; [reflexivity|].
  intros H. apply orb_false_iff in H. destruct H as [Hk Hl].
  destruct (p k' || negb (Nat.eqb (od_len (filterTree_spec p v')) 0)); simpl;
    [rewrite Hk|]; auto.
Qed.

Lemma spec_children_unique (p : Term -> bool) (l : list (Term * TreeVocabItems)) :
  keys_unique (map fst l) = true ->
  keys_unique (map fst (spec_children p l)) = true.
Proof.
  induction l as [|[k v] l IH]; simpl; [reflexivity|].
  intros H. apply andb_true_iff in H. destruct H as [Hk Hl].
  destruct (p k || negb (Nat.eqb (od_len (filterTree_spec p v)) 0)); simpl; auto.
  rewrite IH by assumption. rewrite andb_true_r.
  apply negb_true_iff in Hk. now rewrite spec_children_keys.
Qed.

(** The filtered tree is a well-formed ordered dictionary again. *)
Lemma filterTree_spec_well_formed (p : Term -> bool) (tree : TreeVocabItems) :
  well_formed tree = true -> well_formed (filterTree_spec p tree) = true.
Proof.
  induction tree as [l IH] using TreeVocabItems_ind.
  rewrite filterTree_spec_OD, !well_formed_OD.
  intros H. apply andb_true_iff in H. destruct H as [Hu Hs].
  rewrite spec_children_unique by assumption. simpl.
  clear Hu. induction l as [|[k v] l IHl]; simpl in *; [reflexivity|].
  apply andb_true_iff in Hs. destruct Hs as [Hv Hl].
  inversion IH as [|? ? Hhead Htail]; subst. simpl in Hhead.
  destruct (p k || negb (Nat.eqb (od_len (filterTree_spec p v)) 0)); simpl; auto.
  rewrite Hhead by assumption. simpl. auto.
Qed.

(** ** The tree filter refines the specification's algorithm *)

Section TreeFilter.

Variable lower : string -> string.
Variable translate : Request -> string -> string.
Variable decode_utf8 : list ascii -> string.

Local Abbreviation tree_use := (tree_use lower translate decode_utf8).
Local Abbreviation filter_tree_vocab := (filter_tree_vocab lower translate decode_utf8).

Lemma filter_tree_loop_spec (self_filter : TreeVocabItems -> TreeVocabItems)
      (req : Request) (title token : string) (tokens : TokensParam)
      (outer terms : list (Term * TreeVocabItems)) :
  Forall (fun e => well_formed (snd e) = true ->
                   self_filter (snd e)
                   = filterTree_spec (tree_use req title token tokens) (snd e)) outer ->
  forallb (fun e => well_formed (snd e)) outer = true ->
  keys_unique (map fst outer) = true ->
  (forall k, key_in k (map fst terms) = true -> key_in k (map fst outer) = false) ->
  filter_tree_loop lower translate decode_utf8 self_filter req title token tokens
                   outer terms
  = terms ++ spec_children (tree_use req title token tokens) outer.
Proof.
  revert terms.
  induction outer as [|[term sub_terms] rest IH]; intros terms Hself Hwf Huniq Hfresh.
  - simpl. now rewrite app_nil_r.
  - inversion Hself as [|? ? Hhead Htail]; subst. simpl in Hhead.
    simpl in Hwf. apply andb_true_iff in Hwf. destruct Hwf as [Hsub Hrest].
    simpl in Huniq. apply andb_true_iff in Huniq. destruct Huniq as [Hterm Huniq].
    apply negb_true_iff in Hterm.
    cbn [filter_tree_loop spec_children].
    rewrite (Hhead Hsub).
    set (inner := filterTree_spec (tree_use req title token tokens) sub_terms).
    replace (if (0 <? od_len inner)%nat then true
             else tree_use req title token tokens term)
      with (tree_use req title token tokens term || negb (Nat.eqb (od_len inner) 0)).
    2:{ destruct (od_len inner); simpl; [apply orb_false_r | apply orb_true_r]. }
    assert (Hnew : key_in term (map fst terms) = false).
    { destruct (key_in term (map fst terms)) eqn:E; [|reflexivity].
      apply Hfresh in E. simpl in E. now rewrite Term_eqb_refl in E. }
    destruct (tree_use req title token tokens term || negb (Nat.eqb (od_len inner) 0)).
    + rewrite od_set_fresh by assumption.
      rewrite IH; try assumption.
      * now rewrite <- app_assoc.
      * intros k Hk. rewrite map_app, key_in_app in Hk. simpl in Hk.
        apply orb_true_iff in Hk. destruct Hk as [Hk|Hk].
        -- apply Hfresh in Hk. simpl in Hk. now apply orb_false_iff in Hk.
        -- rewrite orb_false_r in Hk. apply Term_eqb_eq in Hk. now subst.
    + apply IH; try assumption.
      intros k Hk. apply Hfresh in Hk. simpl in Hk. now apply orb_false_iff in Hk.
Qed.

Lemma filter_tree_vocab_OD (req : Request) (title token : string)
      (tokens : TokensParam) (l : list (Term * TreeVocabItems)) :
  filter_tree_vocab req (OD l) title token tokens
  = OD (filter_tree_loop lower translate decode_utf8
          (fun sub_terms =>
             filter_tree_vocab req sub_terms title token (tokens_normalize tokens))
          req title token (tokens_normalize tokens) l []).
Proof. reflexivity. Qed.

(** On a well-formed tree, [filter_tree_vocab] computes exactly the
    specification's pruning, with [tree_use] as the matching rule. *)
Lemma filter_tree_vocab_spec (req : Request) (title token : string)
      (tree : TreeVocabItems) :
  forall tokens : TokensParam,
  well_formed tree = true ->
  filter_tree_vocab req tree title token tokens
  = filterTree_spec (tree_use req title token (tokens_normalize tokens)) tree.
Proof.
  induction tree as [l IH] using TreeVocabItems_ind.
  intros tokens Hwf.
  rewrite filterTree_spec_OD, filter_tree_vocab_OD.
  rewrite well_formed_OD in Hwf.
  apply andb_true_iff in Hwf. destruct Hwf as [Huniq Hsubs].
  rewrite filter_tree_loop_spec; try assumption.
  - reflexivity.
  - apply Forall_forall. intros e He Hwf.
    rewrite Forall_forall in IH. rewrite (IH e He) by assumption.
    now rewrite tokens_normalize_idem.
  - intros k Hk. discriminate.
Qed.

End TreeFilter.

(** ** Properties of the pruning *)

Section Pruning.

Variable p : Term -> bool.

Lemma spec_nonempty_matches (tree : TreeVocabItems) :
  negb (Nat.eqb (od_len (filterTree_spec p tree)) 0) = matches_below p tree.
Proof.
  induction tree as [l IH] using TreeVocabItems_ind.
  rewrite filterTree_spec_OD, matches_below_OD. unfold od_len. simpl.
  induction l as [|[k v] l IHl]; simpl; [reflexivity|].
  inversion IH as [|? ? Hhead Htail]; subst. simpl in Hhead.
  rewrite Hhead.
  destruct (p k || matches_below p v); simpl; auto.
Qed.

Lemma spec_children_idem (l : list (Term * TreeVocabItems)) :
  Forall (fun e => filterTree_spec p (filterTree_spec p (snd e))
                   = filterTree_spec p (snd e)) l ->
  spec_children p (spec_children p l) = spec_children p l.
Proof.
  induction l as [|[k v] l IHl]; intros H; simpl; [reflexivity|].
  inversion H as [|? ? Hhead Htail]; subst. simpl in Hhead.
  destruct (p k || negb (Nat.eqb (od_len (filterTree_spec p v)) 0)) eqn:E; simpl; auto.
  rewrite Hhead, E, IHl by assumption. reflexivity.
Qed.

Lemma filterTree_spec_idem (tree : TreeVocabItems) :
  filterTree_spec p (filterTree_spec p tree) = filterTree_spec p tree.
Proof.
  induction tree as [l IH] using TreeVocabItems_ind.
  rewrite !filterTree_spec_OD. now rewrite spec_children_idem.
Qed.

Lemma filterTree_spec_all (tree : TreeVocabItems) :
  (forall term, p term = true) -> filterTree_spec p tree = tree.
Proof.
  intros Hp.
  induction tree as [l IH] using TreeVocabItems_ind.
  rewrite filterTree_spec_OD. f_equal.
  induction l as [|[k v] l IHl]; simpl; [reflexivity|].
  inversion IH as [|? ? Hhead Htail]; subst. simpl in Hhead.
  rewrite Hp, Hhead. simpl. now rewrite IHl.
Qed.

Lemma filterTree_spec_embeds (tree : TreeVocabItems) :
  tree_embeds (filterTree_spec p tree) tree.
Proof.
  induction tree as [l IH] using TreeVocabItems_ind.
  rewrite filterTree_spec_OD.
  induction l as [|[k v] l IHl]; simpl; [constructor|].
  inversion IH as [|? ? Hhead Htail]; subst. simpl in Hhead.
  destruct (p k || negb (Nat.eqb (od_len (filterTree_spec p v)) 0)).
  - apply embeds_keep; auto.
  - apply embeds_skip; auto.
Qed.

(** The entry found under a key is kept with its pruned subtree when the
    key matches or something below it does. *)
Lemma od_get_spec_children_kept (k : Term) (sub : TreeVocabItems)
      (l : list (Term * TreeVocabItems)) :
  od_get k l = Some sub ->
  p k || matches_below p sub = true ->
  od_get k (spec_children p l) = Some (filterTree_spec p sub).
Proof.
  induction l as [|[k' v'] l IH]; simpl; [discriminate|].
  intros Hget Hkeep.
  destruct (Term_eqb k k') eqn:E.
  - apply Term_eqb_eq in E. subst k'. inversion Hget; subst v'.
    rewrite spec_nonempty_matches, Hkeep. simpl.
    now rewrite Term_eqb_refl.
  - destruct (p k' || negb (Nat.eqb (od_len (filterTree_spec p v')) 0)); simpl; auto.
    rewrite E. auto.
Qed.

(** With unique keys, an entry that neither matches nor has a match
    below it leaves no entry under its key. *)
Lemma od_get_spec_children_dropped (k : Term) (sub : TreeVocabItems)
      (l : list (Term * TreeVocabItems)) :
  keys_unique (map fst l) = true ->
  od_get k l = Some sub ->
  p k || matches_below p sub = false ->
  od_get k (spec_children p l) = None.
Proof.
  induction l as [|[k' v'] l IH]; simpl; [discriminate|].
  intros Huniq Hget Hdrop.
  apply andb_true_iff in Huniq. destruct Huniq as [Hk' Huniq].
  apply negb_true_iff in Hk'.
  destruct (Term_eqb k k') eqn:E.
  - apply Term_eqb_eq in E. subst k'. inversion Hget; subst v'.
    rewrite spec_nonempty_matches, Hdrop.
    apply od_get_key_in. now apply spec_children_keys.
  - destruct (p k' || negb (Nat.eqb (od_len (filterTree_spec p v')) 0)); simpl; auto.
    rewrite E. auto.
Qed.

Lemma has_path_matches_below (path : list Term) (k : Term) (tree : TreeVocabItems) :
  has_path (path ++ [k]) tree = true -> p k = true -> matches_below p tree = true.
Proof.
  revert tree.
  assert (Hget : forall k0 sub l, od_get k0 l = Some sub ->
            p k0 || matches_below p sub = true ->
            existsb (fun e => p (fst e) || matches_below p (snd e)) l = true).
  { intros k0 sub l. induction l as [|[k' v'] l IHl]; simpl; [discriminate|].
    destruct (Term_eqb k0 k') eqn:E.
    - apply Term_eqb_eq in E. subst k'. intros H1 H2. inversion H1; subst.
      now rewrite H2.
    - intros H1 H2. rewrite (IHl H1 H2). apply orb_true_r. }
  induction path as [|k1 path IH]; intros [l] Hpath Hk; simpl in Hpath.
  - destruct (od_get k l) as [sub|] eqn:E; [|discriminate].
    rewrite matches_below_OD. apply (Hget _ _ _ E). now rewrite Hk.
  - destruct (od_get k1 l) as [sub|] eqn:E; [|discriminate].
    rewrite matches_below_OD. apply (Hget _ _ _ E).
    rewrite (IH _ Hpath Hk). apply orb_true_r.
Qed.

(** A chain of keys that ends in a matching term survives the pruning,
    every key of it. *)
Lemma has_path_filterTree_spec (path : list Term) (k : Term) (tree : TreeVocabItems) :
  has_path (path ++ [k]) tree = true -> p k = true ->
  has_path (path ++ [k]) (filterTree_spec p tree) = true.
Proof.
  revert tree.
  induction path as [|k1 path IH]; intros [l] Hpath Hk;
    rewrite filterTree_spec_OD; simpl in *.
  - destruct (od_get k l) as [sub|] eqn:E; [|discriminate].
    rewrite (@od_get_spec_children_kept _ _ _ E); [reflexivity|].
    now rewrite Hk.
  - destruct (od_get k1 l) as [sub|] eqn:E; [|discriminate].
    rewrite (@od_get_spec_children_kept _ _ _ E).
    + now apply IH.
    + rewrite (@has_path_matches_below _ _ _ Hpath Hk). apply orb_true_r.
Qed.

End Pruning.

(** ** Result dictionaries *)

Lemma dict_get_set_same (k : string) (v : json) (d : pydict) :
  dict_get k (dict_set k v d) = Some v.
Proof.
  induction d as [|[k' v'] d IH]; simpl.
  - now rewrite String.eqb_refl.
  - destruct (String.eqb k k') eqn:E; simpl; rewrite E; auto.
Qed.

Lemma dict_get_set_other (k k' : string) (v : json) (d : pydict) :
  String.eqb k k' = false -> dict_get k (dict_set k' v d) = dict_get k d.
Proof.
  intros Hk.
  induction d as [|[k1 v1] d IH]; simpl.
  - now rewrite Hk.
  - destruct (String.eqb k' k1) eqn:E; simpl.
    + apply String.eqb_eq in E. subst k1. now rewrite Hk.
    + now rewrite IH.
Qed.

(** ** The serialization loops as maps *)

Section Loops.

Variable serialize_term : Request -> Term -> pydict.

Lemma serialize_terms_loop_map (req : Request) (terms : list Term) (acc : list pydict) :
  serialize_terms_loop serialize_term req terms acc
  = acc ++ map (serialize_term req) terms.
Proof.
  unfold serialize_terms_loop. revert acc.
  induction terms as [|term terms IH]; intros acc; simpl.
  - now rewrite app_nil_r.
  - rewrite IH, <- app_assoc. reflexivity.
Qed.

Lemma serialize_tree_loop_map (self_serialize : TreeVocabItems -> list pydict)
      (req : Request) (iterable : list (Term * TreeVocabItems)) (acc : list pydict) :
  serialize_tree_loop serialize_term self_serialize req iterable acc
  = acc ++ map (serialized_entry serialize_term self_serialize req) iterable.
Proof.
  revert acc.
  induction iterable as [|[term sub_terms] rest IH]; intros acc; simpl.
  - now rewrite app_nil_r.
  - rewrite IH, <- app_assoc.
    destruct (od_len sub_terms); reflexivity.
Qed.

Lemma serialize_tree_map (req : Request) (terms : TreeVocabItems) :
  serialize_tree serialize_term req terms
  = map (serialized_entry serialize_term (serialize_tree serialize_term req) req)
        (od_items terms).
Proof.
  destruct terms as [l]. simpl. now rewrite serialize_tree_loop_map.
Qed.

End Loops.

(** ** Helpers on lists and predicates *)

Lemma flat_map_singleton_filter (A : Type) (f : A -> bool) (l : list A) :
  flat_map (fun x => if f x then [x] else []) l = filter f l.
Proof.
  induction l as [|x l IH]; simpl; [reflexivity|].
  rewrite IH. destruct (f x); reflexivity.
Qed.

Lemma filter_idem (A : Type) (f : A -> bool) (l : list A) :
  filter f (filter f l) = filter f l.
Proof.
  induction l as [|x l IH]; simpl; [reflexivity|].
  destruct (f x) eqn:E; simpl; rewrite ?E, IH; reflexivity.
Qed.

Lemma filterTree_spec_ext (p q : Term -> bool) (tree : TreeVocabItems) :
  (forall term, p term = q term) -> filterTree_spec p tree = filterTree_spec q tree.
Proof.
  intros Hpq.
  induction tree as [l IH] using TreeVocabItems_ind.
  rewrite !filterTree_spec_OD. f_equal.
  induction l as [|[k v] l IHl]; simpl; [reflexivity|].
  inversion IH as [|? ? Hhead Htail]; subst. simpl in Hhead.
  rewrite Hpq, Hhead, IHl by assumption. reflexivity.
Qed.

Lemma spec_children_keys_subsequence (p : Term -> bool) (l : list (Term * TreeVocabItems)) :
  subsequence (map fst (spec_children p l)) (map fst l).
Proof.
  induction l as [|[k v] l IH]; simpl; [constructor|].
  destruct (p k || negb (Nat.eqb (od_len (filterTree_spec p v)) 0)); simpl;
    now constructor.
Qed.

Lemma od_get_well_formed (k : Term) (sub : TreeVocabItems)
      (l : list (Term * TreeVocabItems)) :
  forallb (fun e => well_formed (snd e)) l = true ->
  od_get k l = Some sub -> well_formed sub = true.
Proof.
  induction l as [|[k' v'] l IH]; simpl; [discriminate|].
  intros H Hget. apply andb_true_iff in H. destruct H as [Hv Hl].
  destruct (Term_eqb k k'); [inversion Hget; now subst | auto].
Qed.

Lemma spec_children_In (p : Term -> bool) (k : Term) (children : TreeVocabItems)
      (l : list (Term * TreeVocabItems)) :
  In (k, children) (spec_children p l) ->
  exists sub, In (k, sub) l /\ children = filterTree_spec p sub.
Proof.
  induction l as [|[k' v'] l IH]; simpl; [tauto|].
  destruct (p k' || negb (Nat.eqb (od_len (filterTree_spec p v')) 0)); simpl.
  - intros [H|H].
    + inversion H; subst. exists v'. auto.
    + destruct (IH H) as (sub & Hin & Heq). exists sub. auto.
  - intros H. destruct (IH H) as (sub & Hin & Heq). exists sub. auto.
Qed.

Lemma In_well_formed (k : Term) (sub : TreeVocabItems) (l : list (Term * TreeVocabItems)) :
  forallb (fun e => well_formed (snd e)) l = true ->
  In (k, sub) l -> well_formed sub = true.
Proof.
  intros H Hin. rewrite forallb_forall in H. apply (H _ Hin).
Qed.

(** ** The response of [__call__] *)

Section Call.

Variable lower : string -> string.
Variable translate : Request -> string -> string.
Variable decode_utf8 : list ascii -> string.
Variable serialize_term : Request -> Term -> pydict.
Variable HypermediaBatch : forall A : Type, Request -> list A -> Batch A.

Local Abbreviation call :=
  (call lower translate decode_utf8 serialize_term HypermediaBatch).
Local Abbreviation filter_flat := (filter_flat lower translate decode_utf8).
Local Abbreviation filter_tree_vocab := (filter_tree_vocab lower translate decode_utf8).
Local Abbreviation tree_use := (tree_use lower translate decode_utf8).
Local Abbreviation serialize_tree := (serialize_tree serialize_term).

Lemma batched_result_get (A : Type) (batch : Batch A) (serialized : list pydict) :
  dict_get "@id" (batched_result batch serialized) = Some (JStr (canonical_url batch))
  /\ dict_get "items" (batched_result batch serialized)
     = Some (JList (map JDict serialized))
  /\ dict_get "items_total" (batched_result batch serialized)
     = Some (JNum (items_total batch)).
Proof.
  unfold batched_result.
  destruct (links batch) as [l|]; [destruct (links_truthy (Some l))|];
    rewrite ?dict_get_set_other by reflexivity; repeat split; reflexivity.
Qed.

(** C1: when [title] and [token] are both non-empty strings the
    serializer sets the status to 400 and returns the error body
    [{error: {type: "Invalid parameters", message: ...}}]; the answer is
    the same for every vocabulary, flat or tree, so no term takes part
    in it. *)
Theorem call_title_and_token_rejected
    (req : Request) (vocabulary : Vocabulary) (vocabulary_id : string)
    (response : Response) :
  query_title req <> "" ->
  query_token req <> "" ->
  call req vocabulary vocabulary_id response
  = ({| status := 400 |},
     [("error",
       JDict [("type", JStr "Invalid parameters");
              ("message",
               JStr "You can not filter by title and token at the same time.")])])
  /\ forall other : Vocabulary,
       call req other vocabulary_id response
       = call req vocabulary vocabulary_id response.
Proof.
  intros Htitle Htoken.
  apply str_truthy_true in Htitle. apply str_truthy_true in Htoken.
  unfold query_title, query_token in *.
  assert (Hcall : forall v, call req v vocabulary_id response
                            = (setStatus 400 response, error_body)).
  { intros v. unfold call. now rewrite Htitle, Htoken. }
  split; [apply Hcall|]. intros other. now rewrite !Hcall.
Qed.


(** C8: with [b_size] equal to ["-1"] no batch is built.  The body never
    holds an [items_total] or a [batching] key, and for a request that
    passes the check of [title] against [token] it is exactly the
    vocabulary id and all serialized items of the filtered vocabulary,
    flat or tree; the response status is left alone. *)
Theorem call_b_size_minus_one_not_batched
    (req : Request) (vocabulary_id : string) (response : Response) :
  form_b_size (form req) = Some "-1" ->
  (forall vocabulary,
      dict_has "items_total" (snd (call req vocabulary vocabulary_id response)) = false
      /\ dict_has "batching" (snd (call req vocabulary vocabulary_id response)) = false)
  /\ (query_title req = "" \/ query_token req = "" ->
      (forall terms,
          call req (FlatVocabulary terms) vocabulary_id response
          = (response,
             [("@id", JStr vocabulary_id);
              ("items",
               JList (map JDict
                 (map (serialize_term req)
                    (filter_flat req terms (query_title req) (query_token req)
                                 (query_tokens req)))))]))
      /\ (forall tree,
          call req (TreeVocabulary tree) vocabulary_id response
          = (response,
             [("@id", JStr vocabulary_id);
              ("items",
               JList (map JDict
                 (serialize_tree req
                    (filter_tree_vocab req tree (query_title req) (query_token req)
                                       (query_tokens req)))))]))).
Proof.
  intros Hsize.
  assert (Hb : String.eqb (form_get (form_b_size (form req)) "") "-1" = true).
  { now rewrite Hsize. }
  split.
  - intros vocabulary. unfold call.
    destruct (str_truthy _ && str_truthy _); [split; reflexivity|].
    destruct vocabulary; rewrite Hb; split; reflexivity.
  - intros Hok.
    assert (Hc : str_truthy (form_get (form_title (form req)) "")
                 && str_truthy (form_get (form_token (form req)) "") = false).
    { unfold query_title, query_token in Hok.
      destruct Hok as [-> | ->]; [reflexivity | apply andb_false_r]. }
    split; intros v; unfold call; rewrite Hc, Hb.
    + now rewrite serialize_terms_loop_map.
    + reflexivity.
Qed.

(** The serializer under a paginator that refuses nothing is [call]. *)
Lemma call_or_raise_never_raised
    (req : Request) (vocabulary : Vocabulary) (vocabulary_id : string)
    (response : Response) :
  call_or_raise lower translate decode_utf8 serialize_term
                (fun A request items => inr (@HypermediaBatch A request items))
                req vocabulary vocabulary_id response
  = Returned (fst (call req vocabulary vocabulary_id response))
             (snd (call req vocabulary vocabulary_id response)).
Proof.
  unfold call_or_raise, call.
  destruct (str_truthy _ && str_truthy _); [reflexivity|].
  destruct vocabulary; destruct (String.eqb _ "-1"); reflexivity.
Qed.

(** C10, as the code has it: for a request that passes the check of
    [title] against [token], ["-1"] is the one value of [b_size] that
    keeps the paginator out: the body is returned whatever the paginator
    would do and holds no [items_total].  With any other [b_size], the
    empty string of an absent parameter included, the filtered sequence
    is handed to the paginator, for flat and tree vocabularies alike.
    When the paginator builds a batch the body holds [items_total], the
    batch's total, under [@id] the batch's canonical url and under [items]
    the records of the batch's page; when the paginator refuses the
    request its exception is the outcome and there is no body. *)
Theorem call_other_b_size_asks_the_paginator
    (HypermediaBatch_or_raise : forall A : Type, Request -> list A -> Exception + Batch A)
    (req : Request) (vocabulary_id : string) (response : Response) :
  query_title req = "" \/ query_token req = "" ->
  (query_b_size req = "-1" ->
   forall vocabulary, exists body,
     dict_has "items_total" body = false
     /\ forall other_paginator : forall A : Type, Request -> list A -> Exception + Batch A,
          call_or_raise lower translate decode_utf8 serialize_term other_paginator
                        req vocabulary vocabulary_id response
          = Returned response body)
  /\ (query_b_size req <> "-1" ->
      (forall terms,
          match HypermediaBatch_or_raise _ req
                  (filter_flat req terms (query_title req) (query_token req)
                               (query_tokens req)) with
          | inl e =>
              call_or_raise lower translate decode_utf8 serialize_term
                            HypermediaBatch_or_raise
                            req (FlatVocabulary terms) vocabulary_id response
              = Raised e
          | inr batch =>
              exists body,
                call_or_raise lower translate decode_utf8 serialize_term
                              HypermediaBatch_or_raise
                              req (FlatVocabulary terms) vocabulary_id response
                = Returned response body
                /\ dict_get "items_total" body = Some (JNum (items_total batch))
                /\ dict_get "@id" body = Some (JStr (canonical_url batch))
                /\ dict_get "items" body
                   = Some (JList (map JDict (map (serialize_term req)
                                                 (batch_iter batch))))
          end)
      /\ (forall tree,
          match HypermediaBatch_or_raise _ req
                  (od_items
                     (filter_tree_vocab req tree (query_title req) (query_token req)
                                        (query_tokens req))) with
          | inl e =>
              call_or_raise lower translate decode_utf8 serialize_term
                            HypermediaBatch_or_raise
                            req (TreeVocabulary tree) vocabulary_id response
              = Raised e
          | inr batch =>
              exists body,
                call_or_raise lower translate decode_utf8 serialize_term
                              HypermediaBatch_or_raise
                              req (TreeVocabulary tree) vocabulary_id response
                = Returned response body
                /\ dict_get "items_total" body = Some (JNum (items_total batch))
                /\ dict_get "@id" body = Some (JStr (canonical_url batch))
                /\ dict_get "items" body
                   = Some (JList (map JDict
                        (map (serialized_entry serialize_term (serialize_tree req) req)
                             (batch_iter batch))))
          end)).
Proof.
  intros Hok.
  assert (Hc : str_truthy (form_get (form_title (form req)) "")
               && str_truthy (form_get (form_token (form req)) "") = false).
  { unfold query_title, query_token in Hok.
    destruct Hok as [-> | ->]; [reflexivity | apply andb_false_r]. }
  split.
  - intros Hsize vocabulary.
    assert (Hb : String.eqb (form_get (form_b_size (form req)) "") "-1" = true).
    { apply String.eqb_eq. exact Hsize. }
    destruct vocabulary as [terms|tree].
    + eexists. split; [|intros other; unfold call_or_raise; rewrite Hc, Hb; reflexivity].
      reflexivity.
    + eexists. split; [|intros other; unfold call_or_raise; rewrite Hc, Hb; reflexivity].
      reflexivity.
  - intros Hsize.
    assert (Hb : String.eqb (form_get (form_b_size (form req)) "") "-1" = false).
    { apply String.eqb_neq. exact Hsize. }
    split; intros v; unfold call_or_raise; rewrite Hc, Hb;
      fold (query_title req) (query_token req) (query_tokens req).
    + destruct (HypermediaBatch_or_raise Term req _) as [e|batch]; [reflexivity|].
      eexists. split; [reflexivity|].
      rewrite serialize_terms_loop_map. simpl app.
      destruct (batched_result_get batch (map (serialize_term req) (batch_iter batch)))
        as (H1 & H2 & H3). auto.
    + destruct (HypermediaBatch_or_raise (Term * TreeVocabItems)%type req _)
        as [e|batch]; [reflexivity|].
      eexists. split; [reflexivity|].
      unfold serialize_tree_vocab. rewrite serialize_tree_loop_map. simpl app.
      destruct (batched_result_get batch
                  (map (serialized_entry serialize_term (serialize_tree req) req)
                       (batch_iter batch))) as (H1 & H2 & H3). auto.
Qed.

(** C9: for a tree the batch is built over the top-level entries of the
    filtered tree and nothing else, and [items] holds one record per
    entry of the page.  An entry's record is the term's own record,
    which gains under [items] the records of all its filtered children,
    in their order, when it has children; the children are never handed
    to the batch.  When the page is made of entries of the sequence it
    was built from, every entry of it carries the whole filtered subtree
    of its term. *)
Theorem call_tree_page_of_top_level_entries
    (req : Request) (vocabulary_id : string) (response : Response)
    (tree : TreeVocabItems) :
  let filtered := filter_tree_vocab req tree (query_title req) (query_token req)
                                    (query_tokens req) in
  let batch := HypermediaBatch req (od_items filtered) in
  let record := serialized_entry serialize_term (serialize_tree req) req in
  query_b_size req <> "-1" ->
  query_title req = "" \/ query_token req = "" ->
  well_formed tree = true ->
  incl (batch_iter batch) (od_items filtered) ->
  dict_get "items" (snd (call req (TreeVocabulary tree) vocabulary_id response))
  = Some (JList (map JDict (map record (batch_iter batch))))
  /\ (forall term children,
        In (term, children) (batch_iter batch) ->
        exists sub,
          In (term, sub) (od_items tree)
          /\ children = filter_tree_vocab req sub (query_title req) (query_token req)
                                          (query_tokens req))
  /\ (forall term children,
        od_len children <> 0%nat ->
        dict_get "items" (record (term, children))
        = Some (JList (map JDict (map record (od_items children)))))
  /\ (forall term children,
        od_len children = 0%nat -> record (term, children) = serialize_term req term).
Proof.
  intros filtered batch record Hsize Hok Hwf Hpage.
  assert (Hb : String.eqb (form_get (form_b_size (form req)) "") "-1" = false).
  { apply String.eqb_neq. exact Hsize. }
  assert (Hc : str_truthy (form_get (form_title (form req)) "")
               && str_truthy (form_get (form_token (form req)) "") = false).
  { unfold query_title, query_token in Hok.
    destruct Hok as [-> | ->]; [reflexivity | apply andb_false_r]. }
  split; [|split; [|split]].
  - unfold call. rewrite Hc, Hb. simpl snd.
    fold (query_title req) (query_token req) (query_tokens req).
    fold filtered. fold batch.
    unfold serialize_tree_vocab. rewrite serialize_tree_loop_map. simpl app.
    apply batched_result_get.
  - intros term children Hin. apply Hpage in Hin.
    subst filtered. rewrite filter_tree_vocab_spec in Hin by assumption.
    destruct tree as [l]. rewrite filterTree_spec_OD in Hin. simpl in Hin.
    apply spec_children_In in Hin. destruct Hin as (sub & Hsub & Heq).
    exists sub. split; [exact Hsub|].
    rewrite well_formed_OD in Hwf. apply andb_true_iff in Hwf.
    destruct Hwf as [_ Hsubs].
    rewrite filter_tree_vocab_spec by (eapply In_well_formed; eauto).
    exact Heq.
  - intros term children Hlen. subst record. unfold serialized_entry at 1.
    apply Nat.eqb_neq in Hlen. rewrite Hlen.
    rewrite dict_get_set_same, serialize_tree_map. reflexivity.
  - intros term children Hlen. subst record. unfold serialized_entry.
    now rewrite Hlen.
Qed.

End Call.

(** ** The filters *)

Section Filters.

Variable lower : string -> string.
Variable translate : Request -> string -> string.
Variable decode_utf8 : list ascii -> string.

Local Abbreviation filter_flat := (filter_flat lower translate decode_utf8).
Local Abbreviation filter_tree_vocab := (filter_tree_vocab lower translate decode_utf8).
Local Abbreviation tree_use := (tree_use lower translate decode_utf8).
Local Abbreviation title_in_term_title :=
  (title_in_term_title lower translate decode_utf8).

(** C3, as the code has it: with [token] and [tokens] empty both filters
    test [title.lower()] against the lowercased translation of the
    term's [title] attribute, decoded when it is bytes, and of the empty
    string when the term has no title or an empty one; the term's token
    plays no part.  The flat filter keeps the terms that pass, the tree
    filter prunes with the same test. *)
Theorem title_branch_tests_the_title_attribute
    (req : Request) (title : string) (terms : list Term) (tree : TreeVocabItems) :
  let passes := fun term =>
    str_in (lower title)
           (lower (translate req (safe_text decode_utf8 (getattr_title_or_empty term)))) in
  well_formed tree = true ->
  filter_flat req terms title "" (TokList []) = filter passes terms
  /\ filter_tree_vocab req tree title "" (TokList []) = filterTree_spec passes tree
  /\ (forall term, term_dot_title term = None ->
        passes term = str_in (lower title) (lower (translate req ""))).
Proof.
  intros passes Hwf. split; [|split].
  - rewrite filter_flat_flat_map.
    unfold flat_kept. simpl. apply flat_map_singleton_filter.
  - rewrite filter_tree_vocab_spec by assumption.
    apply filterTree_spec_ext. intros term.
    unfold tree_use, title_in_term_title, passes. simpl.
    match goal with |- (if ?b then _ else _) = _ => destruct b end; reflexivity.
  - intros term Hnone. subst passes. simpl.
    unfold getattr_title_or_empty. now rewrite Hnone.
Qed.

(** C4: the empty query filters nothing.  The flat filter returns the
    terms as they are, the tree filter returns the tree as it is. *)
Theorem empty_query_is_identity
    (req : Request) (terms : list Term) (tree : TreeVocabItems) :
  lower "" = "" ->
  well_formed tree = true ->
  filter_flat req terms "" "" (TokList []) = terms
  /\ filter_tree_vocab req tree "" "" (TokList []) = tree.
Proof.
  intros Hlower Hwf.
  assert (Hall : forall term, title_in_term_title req "" term = true).
  { intros term. unfold title_in_term_title. rewrite Hlower. apply str_in_empty. }
  split.
  - rewrite filter_flat_flat_map. unfold flat_kept. simpl.
    induction terms as [|term rest IH]; simpl; [reflexivity|].
    now rewrite Hall, IH.
  - rewrite filter_tree_vocab_spec by assumption.
    apply filterTree_spec_all. intros term.
    unfold tree_use. simpl. now rewrite Hall.
Qed.

(** C6: the tree filter is the specification's pruning.  An entry stays,
    with its filtered children, exactly when its term matches or its
    filtered children are not empty; so a chain of nested keys that ends
    in a matching term stays whole, and an entry with no match at or
    below it leaves nothing under its key. *)
Theorem tree_filter_keeps_matches_and_their_ancestors
    (req : Request) (title token : string) (tokens : TokensParam)
    (tree : TreeVocabItems) :
  let selfMatches := tree_use req title token (tokens_normalize tokens) in
  let filtered := filter_tree_vocab req tree title token tokens in
  well_formed tree = true ->
  filtered = filterTree_spec selfMatches tree
  /\ (forall term sub,
        od_get term (od_items tree) = Some sub ->
        let prunedChildren := filter_tree_vocab req sub title token tokens in
        od_get term (od_items filtered)
        = if selfMatches term || negb (Nat.eqb (od_len prunedChildren) 0)
          then Some prunedChildren else None)
  /\ (forall path term,
        has_path (path ++ [term]) tree = true ->
        selfMatches term = true ->
        has_path (path ++ [term]) filtered = true)
  /\ (forall term sub,
        od_get term (od_items tree) = Some sub ->
        selfMatches term = false ->
        matches_below selfMatches sub = false ->
        od_get term (od_items filtered) = None).
Proof.
  intros selfMatches filtered Hwf.
  assert (Hspec : filtered = filterTree_spec selfMatches tree).
  { apply filter_tree_vocab_spec. exact Hwf. }
  destruct tree as [l]. rewrite well_formed_OD in Hwf.
  apply andb_true_iff in Hwf. destruct Hwf as [Huniq Hsubs].
  split; [exact Hspec|]. rewrite Hspec. rewrite filterTree_spec_OD.
  split; [|split].
  - intros term sub Hget prunedChildren. simpl in Hget.
    subst prunedChildren.
    rewrite filter_tree_vocab_spec by (eapply od_get_well_formed; eauto).
    fold selfMatches. rewrite spec_nonempty_matches. simpl od_items.
    destruct (selfMatches term || matches_below selfMatches sub) eqn:E.
    + now apply od_get_spec_children_kept.
    + now apply od_get_spec_children_dropped with (sub := sub).
  - intros path term Hpath Hterm. rewrite <- filterTree_spec_OD.
    now apply has_path_filterTree_spec.
  - intros term sub Hget Hself Hbelow. simpl in *.
    apply od_get_spec_children_dropped with (sub := sub); auto.
    now rewrite Hself, Hbelow.
Qed.

(** C7: the filtered tree is the input tree with entries left out.  At
    every level the entries that stay keep their keys and the order they
    had, and each holds the filtered tree of the same entry's children;
    at the top the kept keys are a subsequence of the input's keys. *)
Theorem tree_filter_preserves_order
    (req : Request) (title token : string) (tokens : TokensParam)
    (tree : TreeVocabItems) :
  well_formed tree = true ->
  tree_embeds (filter_tree_vocab req tree title token tokens) tree
  /\ subsequence (od_keys (filter_tree_vocab req tree title token tokens))
                 (od_keys tree).
Proof.
  intros Hwf. rewrite filter_tree_vocab_spec by assumption. split.
  - apply filterTree_spec_embeds.
  - destruct tree as [l]. rewrite filterTree_spec_OD.
    apply spec_children_keys_subsequence.
Qed.

(** X2: the tree filter is idempotent.  Filtering a filtered tree again,
    with the same parameters, returns it unchanged. *)
Lemma filter_tree_vocab_idempotent
    (req : Request) (title token : string) (tokens : TokensParam)
    (tree : TreeVocabItems) :
  well_formed tree = true ->
  filter_tree_vocab req (filter_tree_vocab req tree title token tokens)
                    title token tokens
  = filter_tree_vocab req tree title token tokens.
Proof.
  intros Hwf.
  rewrite (@filter_tree_vocab_spec lower translate decode_utf8 req title token
             tree tokens Hwf).
  rewrite filter_tree_vocab_spec by now apply filterTree_spec_well_formed.
  apply filterTree_spec_idem.
Qed.

(** X3: the flat filter is idempotent when it tests [token] or [title],
    that is when [token] is not empty or [tokens] is. *)
Lemma filter_flat_idempotent_without_tokens
    (req : Request) (title token : string) (tokens : TokensParam)
    (terms : list Term) :
  str_truthy token = true \/ tokens_truthy tokens = false ->
  filter_flat req (filter_flat req terms title token tokens) title token tokens
  = filter_flat req terms title token tokens.
Proof.
  intros H. rewrite !filter_flat_flat_map.
  set (keep := fun term =>
         if str_truthy token
         then String.eqb (lower token) (lower (term_dot_token term))
         else title_in_term_title req title term).
  assert (Hkept : forall l,
             flat_map (flat_kept lower translate decode_utf8 req title token tokens) l
             = filter keep l).
  { intros l. rewrite <- flat_map_singleton_filter.
    apply flat_map_ext. intros term. unfold flat_kept, keep.
    destruct H as [-> | Ht]; [reflexivity|].
    destruct (str_truthy token); [reflexivity|]. now rewrite Ht. }
  rewrite !Hkept. apply filter_idem.
Qed.

(** Among entries that differ after lowercasing at most one equals the
    term's token. *)
Lemma flat_copies_distinct (items : list string) (term : Term) :
  NoDup (map lower items) ->
  flat_copies lower items term
  = if existsb (fun item => String.eqb (lower item) (lower (token term))) items
    then [term] else [].
Proof.
  unfold flat_copies.
  induction items as [|item items IH]; intros Hdistinct; simpl; [reflexivity|].
  inversion Hdistinct as [|? ? Hfresh Hrest]; subst.
  destruct (String.eqb (lower item) (lower (token term))) eqn:E; simpl.
  - apply String.eqb_eq in E.
    assert (Hnone : filter (fun other => String.eqb (lower other) (lower (token term)))
                           items = []).
    { clear IH Hrest Hdistinct. induction items as [|other items IHitems]; simpl; [reflexivity|].
      destruct (String.eqb (lower other) (lower (token term))) eqn:E'.
      - apply String.eqb_eq in E'. exfalso. apply Hfresh. simpl. left. congruence.
      - apply IHitems. intros Hin. apply Hfresh. simpl. right. exact Hin. }
    now rewrite Hnone.
  - apply IH. exact Hrest.
Qed.

(** X4: the flat filter with [tokens] whose entries differ after
    lowercasing keeps each term whose token equals some entry, once, in
    the order of the vocabulary. *)
Lemma filter_flat_distinct_tokens
    (req : Request) (title : string) (tokens : TokensParam) (terms : list Term) :
  tokens_truthy tokens = true ->
  NoDup (map lower (tokens_iter tokens)) ->
  filter_flat req terms title "" tokens
  = filter (fun term =>
              existsb (fun item => String.eqb (lower item) (lower (token term)))
                      (tokens_iter tokens))
           terms.
Proof.
  intros Htruthy Hdistinct.
  rewrite filter_flat_flat_map, <- flat_map_singleton_filter.
  apply flat_map_ext. intros term. unfold flat_kept. simpl. rewrite Htruthy.
  now apply flat_copies_distinct.
Qed.

End Filters.

(** ** The code on concrete inputs *)

(** The specification's scenario for a flat vocabulary. *)
Example scenario_flat_title :
  run_filter_flat (request_with (Some "app") None None None) apple_banana
                  "app" "" (TokList [])
  = [ {| token := "a"; title := Some (TText "Apple") |} ].
Proof. reflexivity. Qed.

(** The specification's scenario for a tree vocabulary. *)
Example scenario_tree_token :
  run_filter_tree (request_with None (Some "apple") None None) fruit_tree
                  "" "apple" (TokList [])
  = OD [ (plain_term "fruit", OD [ (plain_term "apple", OD []) ]) ].
Proof. reflexivity. Qed.

(** Tokens are compared without regard to case. *)
Example scenario_token_case :
  run_filter_flat (request_with None (Some "A") None None) apple_banana
                  "" "A" (TokList [])
  = [ {| token := "a"; title := Some (TText "Apple") |} ].
Proof. reflexivity. Qed.

(** [tokens] given as the empty string is a one-element list for the tree
    filter, which then looks for the empty token, and is no filter at all
    for the flat filter. *)
Remark tokens_empty_string_flat_and_tree :
  run_filter_tree (request_with None None (Some (TokStr "")) None) fruit_tree
                  "" "" (TokStr "") = OD []
  /\ run_filter_flat (request_with None None (Some (TokStr "")) None) apple_banana
                     "" "" (TokStr "") = apple_banana.
Proof. split; reflexivity. Qed.

(** C2, the code at [tokens = ["a", "A"]]: the flat filter appends the term
    once for every entry of [tokens] that equals its token, so the one term
    of the vocabulary comes out twice. *)
Theorem flat_tokens_filter_repeats_term :
  run_filter_flat (request_with None None (Some (TokList ["a"; "A"])) None)
                  [plain_term "a"] "" "" (TokList ["a"; "A"])
  = [plain_term "a"; plain_term "a"].
Proof. reflexivity. Qed.

(** C5, the code at [tokens = ["a", "A"]]: filtering the flat filter's
    output again yields four copies of the term where the first pass
    yielded two. *)
Theorem flat_tokens_filter_twice_grows :
  run_filter_flat (request_with None None (Some (TokList ["a"; "A"])) None)
                  [plain_term "a"] "" "" (TokList ["a"; "A"])
  = [plain_term "a"; plain_term "a"]
  /\ run_filter_flat (request_with None None (Some (TokList ["a"; "A"])) None)
       (run_filter_flat (request_with None None (Some (TokList ["a"; "A"])) None)
                        [plain_term "a"] "" "" (TokList ["a"; "A"]))
       "" "" (TokList ["a"; "A"])
     = [plain_term "a"; plain_term "a"; plain_term "a"; plain_term "a"].
Proof. split; reflexivity. Qed.

(** C3 as stated fails on a term without a title: its token ["abc"]
    contains the query title ["b"], yet neither filter keeps the term. *)
Lemma title_branch_token_fallback_counterexample :
  str_in (ascii_lower "b")
         (ascii_lower
            (translate_identity (request_with (Some "b") None None None)
               (titleOf decode_ascii (plain_term "abc")))) = true
  /\ run_filter_flat (request_with (Some "b") None None None)
                     [plain_term "abc"] "b" "" (TokList []) = []
  /\ run_filter_tree (request_with (Some "b") None None None)
                     (OD [(plain_term "abc", OD [])]) "b" "" (TokList []) = OD [].
Proof. repeat split; reflexivity. Qed.

(** ** The theorems at concrete inputs *)

Lemma call_title_and_token_rejected_witness :
  query_title (request_with (Some "x") (Some "y") None None) <> ""
  /\ query_token (request_with (Some "x") (Some "y") None None) <> ""
  /\ (run_call 25 (request_with (Some "x") (Some "y") None None)
               (TreeVocabulary fruit_tree) "fruits" {| status := 200 |}
      = ({| status := 400 |},
         [("error",
           JDict [("type", JStr "Invalid parameters");
                  ("message",
                   JStr "You can not filter by title and token at the same time.")])])
      /\ forall other : Vocabulary,
           run_call 25 (request_with (Some "x") (Some "y") None None)
                    other "fruits" {| status := 200 |}
           = run_call 25 (request_with (Some "x") (Some "y") None None)
                      (TreeVocabulary fruit_tree) "fruits" {| status := 200 |}).
Proof.
  assert (Htitle : query_title (request_with (Some "x") (Some "y") None None) <> "")
    by (simpl; discriminate).
  assert (Htoken : query_token (request_with (Some "x") (Some "y") None None) <> "")
    by (simpl; discriminate).
  split; [exact Htitle|]. split; [exact Htoken|].
  exact (@call_title_and_token_rejected ascii_lower translate_identity decode_ascii
           (SerializeTermToJson translate_identity decode_ascii) (paginate 25)
           (request_with (Some "x") (Some "y") None None)
           (TreeVocabulary fruit_tree) "fruits" {| status := 200 |} Htitle Htoken).
Defined.

Lemma title_branch_tests_the_title_attribute_witness :
  well_formed fruit_tree = true
  /\ run_filter_flat (request_with (Some "app") None None None) apple_banana
                     "app" "" (TokList [])
     = [ {| token := "a"; title := Some (TText "Apple") |} ]
  /\ run_filter_tree (request_with (Some "app") None None None) fruit_tree
                     "app" "" (TokList [])
     = OD [].
Proof.
  split; [reflexivity|].
  destruct (@title_branch_tests_the_title_attribute ascii_lower translate_identity
              decode_ascii (request_with (Some "app") None None None) "app"
              apple_banana fruit_tree eq_refl) as (Hflat & Htree & _).
  unfold run_filter_flat, run_filter_tree.
  split; [rewrite Hflat | rewrite Htree]; reflexivity.
Defined.

Lemma empty_query_is_identity_witness :
  ascii_lower "" = ""
  /\ well_formed fruit_tree = true
  /\ run_filter_flat (request_with None None None None) apple_banana
                     "" "" (TokList []) = apple_banana
  /\ run_filter_tree (request_with None None None None) fruit_tree
                     "" "" (TokList []) = fruit_tree.
Proof.
  split; [reflexivity|]. split; [reflexivity|].
  exact (@empty_query_is_identity ascii_lower translate_identity decode_ascii
           (request_with None None None None) apple_banana fruit_tree
           eq_refl eq_refl).
Defined.

Lemma tree_filter_keeps_matches_and_their_ancestors_witness :
  well_formed fruit_tree = true
  /\ has_path [plain_term "fruit"; plain_term "apple"]
       (run_filter_tree (request_with None (Some "apple") None None) fruit_tree
                        "" "apple" (TokList [])) = true
  /\ od_get (plain_term "veg")
       (od_items (run_filter_tree (request_with None (Some "apple") None None)
                                  fruit_tree "" "apple" (TokList []))) = None.
Proof.
  split; [reflexivity|].
  destruct (@tree_filter_keeps_matches_and_their_ancestors ascii_lower
              translate_identity decode_ascii
              (request_with None (Some "apple") None None) "" "apple" (TokList [])
              fruit_tree eq_refl) as (_ & _ & Hpath & Hdrop).
  split.
  - exact (Hpath [plain_term "fruit"] (plain_term "apple") eq_refl eq_refl).
  - exact (Hdrop (plain_term "veg") (OD [(plain_term "carrot", OD [])])
                 eq_refl eq_refl eq_refl).
Defined.

Lemma tree_filter_preserves_order_witness :
  well_formed fruit_tree = true
  /\ tree_embeds (run_filter_tree (request_with None None (Some (TokList ["banana"; "veg"])) None)
                                  fruit_tree "" "" (TokList ["banana"; "veg"]))
                 fruit_tree
  /\ subsequence
       (od_keys (run_filter_tree (request_with None None (Some (TokList ["banana"; "veg"])) None)
                                 fruit_tree "" "" (TokList ["banana"; "veg"])))
       (od_keys fruit_tree).
Proof.
  split; [reflexivity|].
  exact (@tree_filter_preserves_order ascii_lower translate_identity decode_ascii
           (request_with None None (Some (TokList ["banana"; "veg"])) None)
           "" "" (TokList ["banana"; "veg"]) fruit_tree eq_refl).
Defined.

Lemma call_b_size_minus_one_not_batched_witness :
  form_b_size (form (request_with None (Some "apple") None (Some "-1"))) = Some "-1"
  /\ (query_title (request_with None (Some "apple") None (Some "-1")) = ""
      \/ query_token (request_with None (Some "apple") None (Some "-1")) = "")
  /\ run_call 1 (request_with None (Some "apple") None (Some "-1"))
              (TreeVocabulary fruit_tree) "fruits" {| status := 200 |}
     = ({| status := 200 |},
        [("@id", JStr "fruits");
         ("items",
          JList [JDict [("token", JStr "fruit"); ("title", JStr "fruit");
                        ("items",
                         JList [JDict [("token", JStr "apple");
                                       ("title", JStr "apple")]])]])])
  /\ dict_has "items_total"
       (snd (run_call 1 (request_with None (Some "apple") None (Some "-1"))
                      (FlatVocabulary apple_banana) "fruits" {| status := 200 |}))
     = false
  /\ dict_has "batching"
       (snd (run_call 1 (request_with None (Some "apple") None (Some "-1"))
                      (FlatVocabulary apple_banana) "fruits" {| status := 200 |}))
     = false.
Proof.
  split; [reflexivity|]. split; [left; reflexivity|].
  destruct (@call_b_size_minus_one_not_batched ascii_lower translate_identity
              decode_ascii (SerializeTermToJson translate_identity decode_ascii)
              (paginate 1) (request_with None (Some "apple") None (Some "-1"))
              "fruits" {| status := 200 |} eq_refl) as (Hkeys & Hbody).
  destruct (Hbody (or_introl eq_refl)) as (_ & Htree).
  split; [exact (Htree fruit_tree)|].
  exact (Hkeys (FlatVocabulary apple_banana)).
Defined.

Lemma call_tree_page_of_top_level_entries_witness :
  query_b_size (request_with None None None None) <> "-1"
  /\ (query_title (request_with None None None None) = ""
      \/ query_token (request_with None None None None) = "")
  /\ well_formed fruit_tree = true
  /\ incl (batch_iter
             (paginate 1 (request_with None None None None)
                (od_items (run_filter_tree (request_with None None None None)
                                           fruit_tree "" "" (TokList [])))))
          (od_items (run_filter_tree (request_with None None None None)
                                     fruit_tree "" "" (TokList [])))
  /\ dict_get "items"
       (snd (run_call 1 (request_with None None None None)
                      (TreeVocabulary fruit_tree) "fruits" {| status := 200 |}))
     = Some (JList
         [JDict [("token", JStr "fruit"); ("title", JStr "fruit");
                 ("items",
                  JList [JDict [("token", JStr "apple"); ("title", JStr "apple")];
                         JDict [("token", JStr "banana"); ("title", JStr "banana")]])]]).
Proof.
  assert (Hsize : query_b_size (request_with None None None None) <> "-1")
    by (simpl; discriminate).
  assert (Hpage :
    incl (batch_iter
            (paginate 1 (request_with None None None None)
               (od_items (run_filter_tree (request_with None None None None)
                                          fruit_tree "" "" (TokList [])))))
         (od_items (run_filter_tree (request_with None None None None)
                                    fruit_tree "" "" (TokList [])))).
  { intros entry Hentry. simpl in Hentry. destruct Hentry as [<-|[]].
    left. reflexivity. }
  split; [exact Hsize|]. split; [left; reflexivity|]. split; [reflexivity|].
  split; [exact Hpage|].
  exact (proj1
    (@call_tree_page_of_top_level_entries ascii_lower translate_identity decode_ascii
       (SerializeTermToJson translate_identity decode_ascii) (paginate 1)
       (request_with None None None None) "fruits" {| status := 200 |} fruit_tree
       Hsize (or_introl eq_refl) eq_refl Hpage)).
Defined.

(** C10 as stated fails on a [b_size] that is no number: the paginator
    refuses the request, an exception is the outcome and no body holds
    [items_total], for a flat and for a tree vocabulary. *)
Lemma call_non_integer_b_size_counterexample :
  query_b_size (request_with None None None (Some "abc")) <> "-1"
  /\ run_call_or_raise 25 (request_with None None None (Some "abc"))
                       (FlatVocabulary apple_banana) "fruits" {| status := 200 |}
     = Raised (BadRequest "Invalid b_size: Not an integer")
  /\ run_call_or_raise 25 (request_with None None None (Some "abc"))
                       (TreeVocabulary fruit_tree) "fruits" {| status := 200 |}
     = Raised (BadRequest "Invalid b_size: Not an integer").
Proof. split; [simpl; discriminate|]. split; reflexivity. Qed.

Lemma call_other_b_size_asks_the_paginator_witness :
  (query_title (request_with None None None None) = ""
   \/ query_token (request_with None None None None) = "")
  /\ query_b_size (request_with None None None None) <> "-1"
  /\ (exists body,
        run_call_or_raise 1 (request_with None None None None)
                          (FlatVocabulary apple_banana) "fruits" {| status := 200 |}
        = Returned {| status := 200 |} body
        /\ dict_get "items_total" body = Some (JNum 2)
        /\ dict_get "@id" body
           = Some (JStr "http://localhost/@vocabularies/fruits")
        /\ dict_get "items" body
           = Some (JList [JDict [("token", JStr "a"); ("title", JStr "Apple")]])).
Proof.
  assert (Hsize : query_b_size (request_with None None None None) <> "-1")
    by (simpl; discriminate).
  split; [left; reflexivity|]. split; [exact Hsize|].
  exact (proj1 (proj2 (@call_other_b_size_asks_the_paginator ascii_lower
                         translate_identity decode_ascii
                         (SerializeTermToJson translate_identity decode_ascii)
                         (paginate_or_raise 1)
                         (request_with None None None None) "fruits"
                         {| status := 200 |} (or_introl eq_refl)) Hsize)
               apple_banana).
Defined.

(** * Further properties of the filters *)

Lemma od_get_Some_key_in (k : Term) (v : TreeVocabItems) (l : list (Term * TreeVocabItems)) :
  od_get k l = Some v -> key_in k (map fst l) = true.
Proof.
  intros Hget. destruct (key_in k (map fst l)) eqn:E; [reflexivity|].
  rewrite od_get_key_in in Hget by assumption. discriminate.
Qed.

Lemma od_at_app (path : list Term) (k : Term) (tree : TreeVocabItems) :
  od_at (path ++ [k]) tree
  = match od_at path tree with
    | Some sub => od_get k (od_items sub)
    | None => None
    end.
Proof.
  revert tree. induction path as [|k1 path IH]; intros tree; simpl.
  - now destruct (od_get k (od_items tree)).
  - destruct (od_get k1 (od_items tree)); auto.
Qed.

Section PruningMore.

Variable p : Term -> bool.

(** An entry found in the pruned mapping was kept by the rule. *)
Lemma od_get_spec_children_rule (k : Term) (c : TreeVocabItems)
      (l : list (Term * TreeVocabItems)) :
  od_get k (spec_children p l) = Some c ->
  p k || negb (Nat.eqb (od_len c) 0) = true.
Proof.
  induction l as [|[k' v'] l IH]; simpl; [discriminate|].
  destruct (p k' || negb (Nat.eqb (od_len (filterTree_spec p v')) 0)) eqn:E; simpl; auto.
  destruct (Term_eqb k k') eqn:Ek; auto.
  apply Term_eqb_eq in Ek. subst k'. intros H. inversion H; subst. exact E.
Qed.

(** With unique keys, an entry found in the pruned mapping is the pruned
    form of the entry the input holds under the same key. *)
Lemma od_get_spec_children_Some (k : Term) (c : TreeVocabItems)
      (l : list (Term * TreeVocabItems)) :
  keys_unique (map fst l) = true ->
  od_get k (spec_children p l) = Some c ->
  exists sub, od_get k l = Some sub /\ c = filterTree_spec p sub.
Proof.
  induction l as [|[k' v'] l IH]; simpl; [discriminate|].
  intros Huniq Hget.
  apply andb_true_iff in Huniq. destruct Huniq as [Hk' Huniq].
  apply negb_true_iff in Hk'.
  destruct (p k' || negb (Nat.eqb (od_len (filterTree_spec p v')) 0)); simpl in Hget.
  - destruct (Term_eqb k k'); [|auto].
    inversion Hget; subst. eauto.
  - destruct (Term_eqb k k') eqn:Ek; [|auto].
    apply Term_eqb_eq in Ek. subst k'.
    apply od_get_Some_key_in in Hget.
    rewrite spec_children_keys in Hget by assumption. discriminate.
Qed.

Lemma od_at_filterTree_spec (path : list Term) (tree c : TreeVocabItems) :
  well_formed tree = true ->
  od_at path (filterTree_spec p tree) = Some c ->
  exists sub, od_at path tree = Some sub
              /\ well_formed sub = true
              /\ c = filterTree_spec p sub.
Proof.
  revert tree. induction path as [|k path IH]; intros tree Hwf Hat.
  - simpl in *. inversion Hat; subst. eauto.
  - destruct tree as [l]. rewrite filterTree_spec_OD in Hat.
    cbn [od_at od_items] in *.
    rewrite well_formed_OD in Hwf. apply andb_true_iff in Hwf.
    destruct Hwf as [Huniq Hsubs].
    destruct (od_get k (spec_children p l)) as [d|] eqn:E; [|discriminate].
    destruct (@od_get_spec_children_Some _ _ _ Huniq E) as (sub & Hsub & ->).
    rewrite Hsub. apply IH; [|exact Hat].
    eapply od_get_well_formed; eauto.
Qed.

End PruningMore.

Section FiltersMore.

Variable lower : string -> string.
Variable translate : Request -> string -> string.
Variable decode_utf8 : list ascii -> string.

Local Abbreviation filter_flat := (filter_flat lower translate decode_utf8).
Local Abbreviation filter_tree_vocab := (filter_tree_vocab lower translate decode_utf8).
Local Abbreviation tree_use := (tree_use lower translate decode_utf8).
Local Abbreviation flat_kept := (flat_kept lower translate decode_utf8).

Lemma tree_tokens_loop_existsb (items : list string) (term : Term) :
  tree_tokens_loop lower items term false
  = existsb (fun item => String.eqb (lower item) (lower (token term))) items.
Proof.
  induction items as [|item items IH]; simpl; [reflexivity|].
  destruct (String.eqb (lower item) (lower (token term))); auto.
Qed.

Lemma in_flat_copies (items : list string) (term x : Term) :
  In term (flat_copies lower items x)
  <-> term = x
      /\ existsb (fun item => String.eqb (lower item) (lower (token x))) items = true.
Proof.
  unfold flat_copies. rewrite in_map_iff, existsb_exists. split.
  - intros (item & Heq & Hin). apply filter_In in Hin. split; [congruence|eauto].
  - intros (-> & item & Hin & Hitem). exists item. split; [reflexivity|].
    apply filter_In. auto.
Qed.

Lemma in_flat_kept (req : Request) (title token : string) (tokens : TokensParam)
      (term x : Term) :
  In term (flat_kept req title token tokens x)
  <-> term = x /\ tree_use req title token tokens x = true.
Proof.
  unfold flat_kept, tree_use.
  destruct (str_truthy token).
  - destruct (String.eqb (lower token) (lower (term_dot_token x))); simpl;
      intuition congruence.
  - destruct (tokens_truthy tokens).
    + rewrite tree_tokens_loop_existsb. apply in_flat_copies.
    + destruct (title_in_term_title lower translate decode_utf8 req title x); simpl;
        intuition congruence.
Qed.

(** X1: a non-empty [token] decides alone.  Whatever [title] and [tokens]
    are, the flat filter keeps the terms whose lowercased token equals the
    lowercased [token], and the tree filter prunes with that test. *)
Theorem token_takes_precedence
    (req : Request) (title token : string) (tokens : TokensParam)
    (terms : list Term) (tree : TreeVocabItems) :
  token <> "" ->
  well_formed tree = true ->
  filter_flat req terms title token tokens
  = filter (fun term => String.eqb (lower token) (lower (term_dot_token term))) terms
  /\ filter_tree_vocab req tree title token tokens
     = filterTree_spec
         (fun term => String.eqb (lower token) (lower (term_dot_token term))) tree.
Proof.
  intros Htoken Hwf. apply str_truthy_true in Htoken. split.
  - rewrite filter_flat_flat_map, <- flat_map_singleton_filter.
    apply flat_map_ext. intros term. unfold flat_kept. now rewrite Htoken.
  - rewrite filter_tree_vocab_spec by assumption.
    apply filterTree_spec_ext. intros term. unfold tree_use. rewrite Htoken.
    now destruct (String.eqb (lower token) (lower (term_dot_token term))).
Qed.

(** X5: the flat filter returns terms of the vocabulary and nothing else,
    and a term of the vocabulary is returned exactly when it passes the
    test the tree filter applies to a term ([tree_use], on [tokens] as the
    request gives it). *)
Theorem filter_flat_members
    (req : Request) (title token : string) (tokens : TokensParam)
    (terms : list Term) (term : Term) :
  In term (filter_flat req terms title token tokens)
  <-> In term terms /\ tree_use req title token tokens term = true.
Proof.
  rewrite filter_flat_flat_map, in_flat_map. split.
  - intros (x & Hx & Hin). apply in_flat_kept in Hin. destruct Hin as [-> Huse]. auto.
  - intros (Hin & Huse). exists term. split; [exact Hin|].
    apply in_flat_kept. auto.
Qed.

(** X6: the filtered tree is a well-formed ordered dictionary again: no
    mapping of it holds a key twice. *)
Theorem filter_tree_vocab_well_formed
    (req : Request) (title token : string) (tokens : TokensParam)
    (tree : TreeVocabItems) :
  well_formed tree = true ->
  well_formed (filter_tree_vocab req tree title token tokens) = true.
Proof.
  intros Hwf. rewrite filter_tree_vocab_spec by assumption.
  now apply filterTree_spec_well_formed.
Qed.

(** X7: the filtered tree is empty exactly when no term of the tree, at
    any depth, passes the test. *)
Theorem filter_tree_vocab_empty_iff
    (req : Request) (title token : string) (tokens : TokensParam)
    (tree : TreeVocabItems) :
  well_formed tree = true ->
  (od_len (filter_tree_vocab req tree title token tokens) = 0%nat
   <-> matches_below (tree_use req title token (tokens_normalize tokens)) tree = false).
Proof.
  intros Hwf. rewrite filter_tree_vocab_spec by assumption.
  rewrite <- spec_nonempty_matches, negb_false_iff. symmetry. apply Nat.eqb_eq.
Qed.

(** X11: the tree filter moves nothing and invents nothing.  What the
    filtered tree holds under a chain of nested keys is the filtered form
    of what the input tree holds under the same chain. *)
Theorem filter_tree_vocab_subtree_at
    (req : Request) (title token : string) (tokens : TokensParam)
    (tree : TreeVocabItems) (path : list Term) (kept : TreeVocabItems) :
  well_formed tree = true ->
  od_at path (filter_tree_vocab req tree title token tokens) = Some kept ->
  exists sub,
    od_at path tree = Some sub
    /\ kept = filter_tree_vocab req sub title token tokens.
Proof.
  intros Hwf Hat. rewrite filter_tree_vocab_spec in Hat by assumption.
  destruct (@od_at_filterTree_spec _ _ _ _ Hwf Hat) as (sub & Hsub & Hwfsub & ->).
  exists sub. split; [exact Hsub|].
  now rewrite filter_tree_vocab_spec.
Qed.

(** X12: no entry is kept for nothing.  An entry of the filtered tree, at
    any depth, passes the test itself or has children in the filtered
    tree; so every entry without children passes the test. *)
Theorem filter_tree_vocab_entries_justified
    (req : Request) (title token : string) (tokens : TokensParam)
    (tree : TreeVocabItems) (path : list Term) (term : Term)
    (children : TreeVocabItems) :
  well_formed tree = true ->
  od_at (path ++ [term]) (filter_tree_vocab req tree title token tokens)
  = Some children ->
  tree_use req title token (tokens_normalize tokens) term = true
  \/ od_len children <> 0%nat.
Proof.
  intros Hwf Hat. rewrite filter_tree_vocab_spec in Hat by assumption.
  rewrite od_at_app in Hat.
  destruct (od_at path (filterTree_spec _ tree)) as [d|] eqn:E; [|discriminate].
  destruct (@od_at_filterTree_spec _ _ _ _ Hwf E) as (sub & _ & _ & ->).
  destruct sub as [l]. rewrite filterTree_spec_OD in Hat. simpl in Hat.
  apply od_get_spec_children_rule in Hat.
  apply orb_true_iff in Hat. destruct Hat as [H|H]; [left; exact H|right].
  apply negb_true_iff in H. now apply Nat.eqb_neq.
Qed.

End FiltersMore.

Section FlatAndTree.

Variable lower : string -> string.
Variable translate : Request -> string -> string.
Variable decode_utf8 : list ascii -> string.

Local Abbreviation filter_flat := (filter_flat lower translate decode_utf8).
Local Abbreviation filter_tree_vocab := (filter_tree_vocab lower translate decode_utf8).
Local Abbreviation tree_use := (tree_use lower translate decode_utf8).
Local Abbreviation flat_kept := (flat_kept lower translate decode_utf8).

(** When no two entries of [tokens] agree after lowercasing, or [token]
    decides, a term contributes itself once or not at all. *)
Lemma flat_kept_rule (req : Request) (title token : string) (tokens : TokensParam)
      (term : Term) :
  token <> "" \/ NoDup (map lower (tokens_iter tokens)) ->
  flat_kept req title token tokens term
  = if tree_use req title token tokens term then [term] else [].
Proof.
  intros H. unfold flat_kept, tree_use.
  destruct (str_truthy token) eqn:Htoken.
  - now destruct (String.eqb (lower token) (lower (term_dot_token term))).
  - destruct H as [H|H]; [apply str_truthy_true in H; congruence|].
    destruct (tokens_truthy tokens).
    + rewrite tree_tokens_loop_existsb. now apply flat_copies_distinct.
    + now destruct (title_in_term_title lower translate decode_utf8 req title term).
Qed.

Lemma leaves_well_formed (terms : list Term) :
  keys_unique terms = true -> well_formed (leaves terms) = true.
Proof.
  intros Huniq. unfold leaves. rewrite well_formed_OD, map_map. simpl.
  rewrite map_id, Huniq. simpl.
  clear Huniq. induction terms as [|term terms IH]; simpl; auto.
Qed.

Lemma spec_children_leaves (p : Term -> bool) (terms : list Term) :
  map fst (spec_children p (map (fun term => (term, OD [])) terms)) = filter p terms.
Proof.
  induction terms as [|term terms IH]; simpl; [reflexivity|].
  rewrite orb_false_r. destruct (p term); simpl; now rewrite IH.
Qed.

(** X10: the two filters agree on a vocabulary without nesting.  For
    distinct terms given to the tree filter as entries without children,
    the keys of the filtered tree are the flat filter's result, in the
    same order, when [token] decides or no two entries of the [tokens]
    list agree after lowercasing. *)
Theorem tree_filter_of_leaves_is_flat_filter
    (req : Request) (title token : string) (items : list string)
    (terms : list Term) :
  keys_unique terms = true ->
  token <> "" \/ NoDup (map lower items) ->
  od_keys (filter_tree_vocab req (leaves terms) title token (TokList items))
  = filter_flat req terms title token (TokList items).
Proof.
  intros Huniq Hdistinct.
  rewrite filter_tree_vocab_spec by now apply leaves_well_formed.
  unfold leaves. rewrite filterTree_spec_OD. unfold od_keys. simpl od_items.
  rewrite spec_children_leaves.
  rewrite filter_flat_flat_map, <- flat_map_singleton_filter.
  apply flat_map_ext. intros term. symmetry. now apply flat_kept_rule.
Qed.

(** X13: [token] is compared by its lowercase form only.  Two non-empty
    values of [token] with the same lowercase form select the same terms,
    in the flat filter and in the tree filter. *)
Theorem token_compared_by_lowercase
    (req : Request) (title token token' : string) (tokens : TokensParam)
    (terms : list Term) (tree : TreeVocabItems) :
  token <> "" -> token' <> "" ->
  lower token = lower token' ->
  well_formed tree = true ->
  filter_flat req terms title token tokens = filter_flat req terms title token' tokens
  /\ filter_tree_vocab req tree title token tokens
     = filter_tree_vocab req tree title token' tokens.
Proof.
  intros H H' Hlower Hwf.
  apply str_truthy_true in H. apply str_truthy_true in H'. split.
  - rewrite !filter_flat_flat_map. apply flat_map_ext. intros term.
    unfold flat_kept. now rewrite H, H', Hlower.
  - rewrite !filter_tree_vocab_spec by assumption.
    apply filterTree_spec_ext. intros term.
    unfold tree_use. now rewrite H, H', Hlower.
Qed.

(** X14: [tokens] given as one string is the list of that string.  The
    tree filter makes no difference between the two; the flat filter makes
    none when the string is not empty (an empty string is no filter
    there, [tokens_empty_string_flat_and_tree]). *)
Theorem tokens_string_is_one_element_list
    (req : Request) (title token s : string)
    (terms : list Term) (tree : TreeVocabItems) :
  filter_tree_vocab req tree title token (TokStr s)
  = filter_tree_vocab req tree title token (TokList [s])
  /\ (s <> "" ->
      filter_flat req terms title token (TokStr s)
      = filter_flat req terms title token (TokList [s])).
Proof.
  split.
  - destruct tree as [l]. reflexivity.
  - intros Hs. apply str_truthy_true in Hs.
    rewrite !filter_flat_flat_map. apply flat_map_ext. intros term.
    unfold flat_kept. simpl. now rewrite Hs.
Qed.

End FlatAndTree.

Section CallMore.

Variable lower : string -> string.
Variable translate : Request -> string -> string.
Variable decode_utf8 : list ascii -> string.
Variable serialize_term : Request -> Term -> pydict.
Variable HypermediaBatch : forall A : Type, Request -> list A -> Batch A.

Local Abbreviation call :=
  (call lower translate decode_utf8 serialize_term HypermediaBatch).
Local Abbreviation filter_flat := (filter_flat lower translate decode_utf8).
Local Abbreviation filter_tree_vocab := (filter_tree_vocab lower translate decode_utf8).
Local Abbreviation serialize_tree_vocab := (serialize_tree_vocab serialize_term).

Lemma batched_result_batching (A : Type) (batch : Batch A) (serialized : list pydict) :
  dict_get "batching" (batched_result batch serialized)
  = match links batch with
    | Some (link :: more) => Some (JDict (link :: more))
    | _ => None
    end.
Proof.
  unfold batched_result.
  destruct (links batch) as [[|link more]|]; simpl; reflexivity.
Qed.

(** X8: putting the children under [items] touches no other key.  On
    every key but [items] the record of an entry, of a tree or of a page,
    reads as the record the term's own serializer returned. *)
Theorem serialize_tree_vocab_keeps_term_keys
    (req : Request) (key : string)
    (terms : TreeVocabItems + Batch (Term * TreeVocabItems)) :
  key <> "items" ->
  map (dict_get key) (serialize_tree_vocab req terms)
  = map (fun entry => dict_get key (serialize_term req (fst entry)))
        (match terms with
         | inl d => od_items d
         | inr batch => batch_iter batch
         end).
Proof.
  intros Hkey. apply String.eqb_neq in Hkey.
  assert (Hentry : forall self entry,
             dict_get key (serialized_entry serialize_term self req entry)
             = dict_get key (serialize_term req (fst entry))).
  { intros self [term children]. unfold serialized_entry. simpl.
    destruct (Nat.eqb (od_len children) 0); [reflexivity|].
    now apply dict_get_set_other. }
  destruct terms as [d|batch]; simpl.
  - rewrite serialize_tree_map, map_map. apply map_ext. intros entry. apply Hentry.
  - rewrite serialize_tree_loop_map. simpl app. rewrite map_map.
    apply map_ext. intros entry. apply Hentry.
Qed.

(** X9: [batching] is in the body of a batched answer exactly when the
    batch has links, a non-empty dictionary, and then holds them; a batch
    whose links are [None] or empty leaves the key out.  Flat and tree
    vocabularies alike. *)
Theorem call_batching_iff_links
    (req : Request) (vocabulary_id : string) (response : Response) :
  query_b_size req <> "-1" ->
  query_title req = "" \/ query_token req = "" ->
  (forall terms,
      dict_get "batching" (snd (call req (FlatVocabulary terms) vocabulary_id response))
      = match links (HypermediaBatch req
                       (filter_flat req terms (query_title req) (query_token req)
                                    (query_tokens req))) with
        | Some (link :: more) => Some (JDict (link :: more))
        | _ => None
        end)
  /\ (forall tree,
      dict_get "batching" (snd (call req (TreeVocabulary tree) vocabulary_id response))
      = match links (HypermediaBatch req
                       (od_items
                          (filter_tree_vocab req tree (query_title req)
                                             (query_token req) (query_tokens req)))) with
        | Some (link :: more) => Some (JDict (link :: more))
        | _ => None
        end).
Proof.
  intros Hsize Hok.
  assert (Hb : String.eqb (form_get (form_b_size (form req)) "") "-1" = false).
  { apply String.eqb_neq. exact Hsize. }
  assert (Hc : str_truthy (form_get (form_title (form req)) "")
               && str_truthy (form_get (form_token (form req)) "") = false).
  { unfold query_title, query_token in Hok.
    destruct Hok as [-> | ->]; [reflexivity | apply andb_false_r]. }
  split; intros v; unfold call; rewrite Hc, Hb; simpl snd;
    apply batched_result_batching.
Qed.

End CallMore.

(** ** The further properties at concrete inputs *)

Lemma token_takes_precedence_witness :
  "A" <> ""
  /\ well_formed fruit_tree = true
  /\ run_filter_flat (request_with (Some "") (Some "A") (Some (TokList ["b"])) None)
                     apple_banana "" "A" (TokList ["b"])
     = filter (fun term => String.eqb (ascii_lower "A") (ascii_lower (token term)))
              apple_banana
  /\ run_filter_tree (request_with (Some "") (Some "A") (Some (TokList ["b"])) None)
                     fruit_tree "" "A" (TokList ["b"])
     = filterTree_spec
         (fun term => String.eqb (ascii_lower "A") (ascii_lower (token term)))
         fruit_tree.
Proof.
  assert (Htoken : "A" <> "") by discriminate.
  split; [exact Htoken|]. split; [reflexivity|].
  exact (@token_takes_precedence ascii_lower translate_identity decode_ascii
           (request_with (Some "") (Some "A") (Some (TokList ["b"])) None)
           "" "A" (TokList ["b"]) apple_banana fruit_tree Htoken eq_refl).
Defined.

Lemma filter_tree_vocab_idempotent_witness :
  well_formed fruit_tree = true
  /\ run_filter_tree (request_with None (Some "apple") None None)
       (run_filter_tree (request_with None (Some "apple") None None)
                        fruit_tree "" "apple" (TokList []))
       "" "apple" (TokList [])
     = run_filter_tree (request_with None (Some "apple") None None)
                       fruit_tree "" "apple" (TokList []).
Proof.
  split; [reflexivity|].
  exact (@filter_tree_vocab_idempotent ascii_lower translate_identity decode_ascii
           (request_with None (Some "apple") None None) "" "apple" (TokList [])
           fruit_tree eq_refl).
Defined.

Lemma filter_flat_idempotent_without_tokens_witness :
  (str_truthy "" = true \/ tokens_truthy (TokList []) = false)
  /\ run_filter_flat (request_with (Some "an") None None None)
       (run_filter_flat (request_with (Some "an") None None None)
                        apple_banana "an" "" (TokList []))
       "an" "" (TokList [])
     = run_filter_flat (request_with (Some "an") None None None)
                       apple_banana "an" "" (TokList []).
Proof.
  split; [right; reflexivity|].
  exact (@filter_flat_idempotent_without_tokens ascii_lower translate_identity
           decode_ascii (request_with (Some "an") None None None) "an" ""
           (TokList []) apple_banana (or_intror eq_refl)).
Defined.

Lemma filter_flat_distinct_tokens_witness :
  tokens_truthy (TokList ["B"; "a"]) = true
  /\ NoDup (map ascii_lower (tokens_iter (TokList ["B"; "a"])))
  /\ run_filter_flat (request_with None None (Some (TokList ["B"; "a"])) None)
                     apple_banana "" "" (TokList ["B"; "a"])
     = apple_banana.
Proof.
  assert (Hdistinct : NoDup (map ascii_lower (tokens_iter (TokList ["B"; "a"])))).
  { simpl. repeat constructor; simpl; intuition discriminate. }
  split; [reflexivity|]. split; [exact Hdistinct|].
  exact (@filter_flat_distinct_tokens ascii_lower translate_identity decode_ascii
           (request_with None None (Some (TokList ["B"; "a"])) None) ""
           (TokList ["B"; "a"]) apple_banana eq_refl Hdistinct).
Defined.

Lemma filter_tree_vocab_well_formed_witness :
  well_formed fruit_tree = true
  /\ well_formed (run_filter_tree (request_with None (Some "carrot") None None)
                                  fruit_tree "" "carrot" (TokList [])) = true.
Proof.
  split; [reflexivity|].
  exact (@filter_tree_vocab_well_formed ascii_lower translate_identity decode_ascii
           (request_with None (Some "carrot") None None) "" "carrot" (TokList [])
           fruit_tree eq_refl).
Defined.

Lemma filter_tree_vocab_empty_iff_witness :
  well_formed fruit_tree = true
  /\ (od_len (run_filter_tree (request_with None (Some "pear") None None)
                              fruit_tree "" "pear" (TokList [])) = 0%nat
      <-> matches_below
            (tree_use ascii_lower translate_identity decode_ascii
                      (request_with None (Some "pear") None None) "" "pear"
                      (tokens_normalize (TokList [])))
            fruit_tree = false).
Proof.
  split; [reflexivity|].
  exact (@filter_tree_vocab_empty_iff ascii_lower translate_identity decode_ascii
           (request_with None (Some "pear") None None) "" "pear" (TokList [])
           fruit_tree eq_refl).
Defined.

Lemma filter_tree_vocab_subtree_at_witness :
  well_formed fruit_tree = true
  /\ od_at [plain_term "fruit"]
       (run_filter_tree (request_with None (Some "apple") None None)
                        fruit_tree "" "apple" (TokList []))
     = Some (OD [(plain_term "apple", OD [])])
  /\ exists sub,
       od_at [plain_term "fruit"] fruit_tree = Some sub
       /\ OD [(plain_term "apple", OD [])]
          = run_filter_tree (request_with None (Some "apple") None None)
                            sub "" "apple" (TokList []).
Proof.
  split; [reflexivity|]. split; [reflexivity|].
  exact (@filter_tree_vocab_subtree_at ascii_lower translate_identity decode_ascii
           (request_with None (Some "apple") None None) "" "apple" (TokList [])
           fruit_tree [plain_term "fruit"] (OD [(plain_term "apple", OD [])])
           eq_refl eq_refl).
Defined.

Lemma filter_tree_vocab_entries_justified_witness :
  well_formed fruit_tree = true
  /\ od_at ([plain_term "fruit"] ++ [plain_term "apple"])
       (run_filter_tree (request_with None (Some "apple") None None)
                        fruit_tree "" "apple" (TokList []))
     = Some (OD [])
  /\ (tree_use ascii_lower translate_identity decode_ascii
               (request_with None (Some "apple") None None) "" "apple"
               (tokens_normalize (TokList [])) (plain_term "apple") = true
      \/ od_len (OD []) <> 0%nat).
Proof.
  split; [reflexivity|]. split; [reflexivity|].
  exact (@filter_tree_vocab_entries_justified ascii_lower translate_identity
           decode_ascii (request_with None (Some "apple") None None) "" "apple"
           (TokList []) fruit_tree [plain_term "fruit"] (plain_term "apple") (OD [])
           eq_refl eq_refl).
Defined.

Lemma tree_filter_of_leaves_is_flat_filter_witness :
  keys_unique apple_banana = true
  /\ ("" <> "" \/ NoDup (map ascii_lower ["B"; "a"]))
  /\ od_keys (run_filter_tree (request_with None None (Some (TokList ["B"; "a"])) None)
                              (leaves apple_banana) "" "" (TokList ["B"; "a"]))
     = run_filter_flat (request_with None None (Some (TokList ["B"; "a"])) None)
                       apple_banana "" "" (TokList ["B"; "a"]).
Proof.
  assert (Hdistinct : "" <> "" \/ NoDup (map ascii_lower ["B"; "a"])).
  { right. simpl. repeat constructor; simpl; intuition discriminate. }
  split; [reflexivity|]. split; [exact Hdistinct|].
  exact (@tree_filter_of_leaves_is_flat_filter ascii_lower translate_identity
           decode_ascii (request_with None None (Some (TokList ["B"; "a"])) None)
           "" "" ["B"; "a"] apple_banana eq_refl Hdistinct).
Defined.

Lemma token_compared_by_lowercase_witness :
  "Apple" <> "" /\ "APPLE" <> ""
  /\ ascii_lower "Apple" = ascii_lower "APPLE"
  /\ well_formed fruit_tree = true
  /\ run_filter_flat (request_with None (Some "Apple") None None)
                     apple_banana "" "Apple" (TokList [])
     = run_filter_flat (request_with None (Some "Apple") None None)
                       apple_banana "" "APPLE" (TokList [])
  /\ run_filter_tree (request_with None (Some "Apple") None None)
                     fruit_tree "" "Apple" (TokList [])
     = run_filter_tree (request_with None (Some "Apple") None None)
                       fruit_tree "" "APPLE" (TokList []).
Proof.
  assert (H : "Apple" <> "") by discriminate.
  assert (H' : "APPLE" <> "") by discriminate.
  split; [exact H|]. split; [exact H'|]. split; [reflexivity|]. split; [reflexivity|].
  exact (@token_compared_by_lowercase ascii_lower translate_identity decode_ascii
           (request_with None (Some "Apple") None None) "" "Apple" "APPLE"
           (TokList []) apple_banana fruit_tree H H' eq_refl eq_refl).
Defined.

Lemma tokens_string_is_one_element_list_witness :
  "A" <> ""
  /\ run_filter_flat (request_with None None (Some (TokStr "A")) None)
                     apple_banana "" "" (TokStr "A")
     = run_filter_flat (request_with None None (Some (TokStr "A")) None)
                       apple_banana "" "" (TokList ["A"]).
Proof.
  assert (H : "A" <> "") by discriminate.
  split; [exact H|].
  exact (proj2 (@tokens_string_is_one_element_list ascii_lower translate_identity
                  decode_ascii (request_with None None (Some (TokStr "A")) None)
                  "" "" "A" apple_banana fruit_tree) H).
Defined.

Lemma serialize_tree_vocab_keeps_term_keys_witness :
  "token" <> "items"
  /\ map (dict_get "token")
         (serialize_tree_vocab (SerializeTermToJson translate_identity decode_ascii)
            (request_with None None None None) (inl fruit_tree))
     = [Some (JStr "fruit"); Some (JStr "veg")].
Proof.
  assert (H : "token" <> "items") by discriminate.
  split; [exact H|].
  exact (@serialize_tree_vocab_keeps_term_keys
           (SerializeTermToJson translate_identity decode_ascii)
           (request_with None None None None) "token" (inl fruit_tree) H).
Defined.

Lemma call_batching_iff_links_witness :
  query_b_size (request_with None None None None) <> "-1"
  /\ (query_title (request_with None None None None) = ""
      \/ query_token (request_with None None None None) = "")
  /\ dict_get "batching"
       (snd (run_call 1 (request_with None None None None)
                      (FlatVocabulary apple_banana) "fruits" {| status := 200 |}))
     = Some (JDict [("@id", JStr "http://localhost/@vocabularies/fruits")])
  /\ dict_get "batching"
       (snd (run_call 25 (request_with None None None None)
                      (TreeVocabulary fruit_tree) "fruits" {| status := 200 |}))
     = None.
Proof.
  assert (Hsize : query_b_size (request_with None None None None) <> "-1")
    by (simpl; discriminate).
  split; [exact Hsize|]. split; [left; reflexivity|]. split.
  - exact (proj1 (@call_batching_iff_links ascii_lower translate_identity decode_ascii
                    (SerializeTermToJson translate_identity decode_ascii) (paginate 1)
                    (request_with None None None None) "fruits" {| status := 200 |}
                    Hsize (or_introl eq_refl)) apple_banana).
  - exact (proj2 (@call_batching_iff_links ascii_lower translate_identity decode_ascii
                    (SerializeTermToJson translate_identity decode_ascii) (paginate 25)
                    (request_with None None None None) "fruits" {| status := 200 |}
                    Hsize (or_introl eq_refl)) fruit_tree).
Defined.
